(** * VulkanBlitter: image copies between render-target attachments

    A shallow embedding of [filament/backend/src/vulkan/VulkanBlitter.cpp].

    The blitter records commands into a caller-supplied command buffer and
    owns two lazily created shader modules.  Everything it does to the outside
    world is a call to a collaborator (the barrier emitter
    [transitionImageLayout], the Vulkan entry points [vkCmdResolveImage],
    [vkCmdBlitImage], [vkCreateShaderModule], [vkDestroyShaderModule]); the
    embedding keeps the list of these calls, in program order, next to the
    object's own fields, and threads both through a small state-and-failure
    monad. *)

From Stdlib Require Import ZArith List String Bool Lia.
Import ListNotations.
Local Open Scope Z_scope.

(** ** Vulkan scalar types and the enumerators the file uses

    Handles, enums and flag words are integers, with the values of
    [vulkan_core.h]. *)

Definition VkImage := Z.
Definition VkDevice := Z.
Definition VkPhysicalDevice := Z.
Definition VkQueue := Z.
Definition VkCommandBuffer := Z.
Definition VkShaderModule := Z.
Definition VkFormat := Z.
Definition VkImageLayout := Z.
Definition VkAccessFlags := Z.
Definition VkPipelineStageFlags := Z.
Definition VkImageAspectFlags := Z.
Definition VkFilter := Z.
Definition VkResult := Z.
Definition TextureUsage := Z.

Definition VK_NULL_HANDLE : Z := 0.
Definition VK_SUCCESS : VkResult := 0.

Definition VK_IMAGE_LAYOUT_UNDEFINED : VkImageLayout := 0.
Definition VK_IMAGE_LAYOUT_GENERAL : VkImageLayout := 1.
Definition VK_IMAGE_LAYOUT_COLOR_ATTACHMENT_OPTIMAL : VkImageLayout := 2.
Definition VK_IMAGE_LAYOUT_SHADER_READ_ONLY_OPTIMAL : VkImageLayout := 5.
Definition VK_IMAGE_LAYOUT_TRANSFER_SRC_OPTIMAL : VkImageLayout := 6.
Definition VK_IMAGE_LAYOUT_TRANSFER_DST_OPTIMAL : VkImageLayout := 7.
Definition VK_IMAGE_LAYOUT_PRESENT_SRC_KHR : VkImageLayout := 1000001002.

Definition VK_ACCESS_SHADER_READ_BIT : VkAccessFlags := 0x20.
Definition VK_ACCESS_TRANSFER_READ_BIT : VkAccessFlags := 0x800.
Definition VK_ACCESS_TRANSFER_WRITE_BIT : VkAccessFlags := 0x1000.

Definition VK_PIPELINE_STAGE_TOP_OF_PIPE_BIT : VkPipelineStageFlags := 0x1.
Definition VK_PIPELINE_STAGE_FRAGMENT_SHADER_BIT : VkPipelineStageFlags := 0x80.
Definition VK_PIPELINE_STAGE_TRANSFER_BIT : VkPipelineStageFlags := 0x1000.
Definition VK_PIPELINE_STAGE_BOTTOM_OF_PIPE_BIT : VkPipelineStageFlags := 0x2000.

Definition VK_IMAGE_ASPECT_COLOR_BIT : VkImageAspectFlags := 0x1.
Definition VK_IMAGE_ASPECT_DEPTH_BIT : VkImageAspectFlags := 0x2.

Definition VK_FORMAT_FEATURE_BLIT_SRC_BIT : Z := 0x400.
Definition VK_FORMAT_FEATURE_BLIT_DST_BIT : Z := 0x800.

Definition VK_FILTER_NEAREST : VkFilter := 0.
Definition VK_FILTER_LINEAR : VkFilter := 1.

Definition VK_STRUCTURE_TYPE_SHADER_MODULE_CREATE_INFO : Z := 16.

(** [#define FILAMENT_VULKAN_CHECK_BLIT_FORMAT 0] *)
Definition FILAMENT_VULKAN_CHECK_BLIT_FORMAT : bool := false.

(** ** Vulkan structures *)

Record VkOffset3D := { off_x : Z; off_y : Z; off_z : Z }.
Record VkExtent2D := { width : Z; height : Z }.
Record VkExtent3D := { ext_width : Z; ext_height : Z; ext_depth : Z }.

Record VkImageSubresourceLayers := {
  sl_aspectMask : VkImageAspectFlags;
  sl_mipLevel : Z;
  sl_baseArrayLayer : Z;
  sl_layerCount : Z
}.

Record VkImageSubresourceRange := {
  aspectMask : VkImageAspectFlags;
  baseMipLevel : Z;
  levelCount : Z;
  baseArrayLayer : Z;
  layerCount : Z
}.

Record VkImageBlit := {
  blit_srcSubresource : VkImageSubresourceLayers;
  blit_srcOffsets : VkOffset3D * VkOffset3D;
  blit_dstSubresource : VkImageSubresourceLayers;
  blit_dstOffsets : VkOffset3D * VkOffset3D
}.

Record VkImageResolve := {
  res_srcSubresource : VkImageSubresourceLayers;
  res_srcOffset : VkOffset3D;
  res_dstSubresource : VkImageSubresourceLayers;
  res_dstOffset : VkOffset3D;
  res_extent : VkExtent3D
}.

Record VkShaderModuleCreateInfo := {
  sType : Z;
  pNext : Z;
  flags : Z;
  codeSize : Z;
  pCode : list Z
}.

(** ** Backend structures (declared in VulkanContext.h and VulkanHandles.h) *)

(** Modelled from the spec: the declaration of [VulkanLayoutTransition]
    (VulkanContext.h) is missing; VulkanBlitter.cpp only builds values of
    it.  The fields and their order are those of the spec's
    LayoutTransitionSpec
    (imageHandle, oldLayout, newLayout, subresourceRange, srcStage,
    srcAccessMask, dstStage, dstAccessMask); the positional initialisers of
    [blitFast] are read against this order. *)
Record VulkanLayoutTransition := {
  image : VkImage;
  oldLayout : VkImageLayout;
  newLayout : VkImageLayout;
  subresources : VkImageSubresourceRange;
  srcStage : VkPipelineStageFlags;
  srcAccessMask : VkAccessFlags;
  dstStage : VkPipelineStageFlags;
  dstAccessMask : VkAccessFlags
}.

(** The part of a texture the blitter reads: [texture->samples] and
    [texture->usage]. *)
Record VulkanTexture := {
  samples : Z;
  usage : TextureUsage
}.

(** An attachment; [texture] is a pointer in the source and may be null
    (the default render target has no texture), hence an option. *)
Record VulkanAttachment := {
  att_format : VkFormat;
  att_image : VkImage;
  texture : option VulkanTexture;
  att_layout : VkImageLayout;
  level : Z;
  layer : Z
}.

Record VulkanSurfaceContext := {
  headlessQueue : VkQueue
}.

Record VulkanContext := {
  device : VkDevice;
  physicalDevice : VkPhysicalDevice;
  currentSurface : VulkanSurfaceContext
}.

(** A render target as the blitter sees it: its three accessors. *)
Record VulkanRenderTarget := {
  getExtent : VkExtent2D;
  getColor : Z -> VulkanAttachment;
  getDepth : VulkanAttachment
}.

Record BlitArgs := {
  dstTarget : VulkanRenderTarget;
  dstRectPair : VkOffset3D * VkOffset3D;
  srcTarget : VulkanRenderTarget;
  srcRectPair : VkOffset3D * VkOffset3D;
  filter : VkFilter;
  targetIndex : Z
}.

(** ** transitionHelper *)

(** The [switch] of the source: two labelled cases fall into the first
    block, every other value (the two labelled ones and [default]) into the
    second. *)
Definition transitionHelper (transition : VulkanLayoutTransition)
  : VulkanLayoutTransition :=
  if (newLayout transition =? VK_IMAGE_LAYOUT_SHADER_READ_ONLY_OPTIMAL)
     || (newLayout transition =? VK_IMAGE_LAYOUT_GENERAL)
  then
    {| image := image transition;
       oldLayout := oldLayout transition;
       newLayout := newLayout transition;
       subresources := subresources transition;
       srcStage := VK_PIPELINE_STAGE_TRANSFER_BIT;
       srcAccessMask := VK_ACCESS_TRANSFER_WRITE_BIT;
       dstStage := VK_PIPELINE_STAGE_FRAGMENT_SHADER_BIT;
       dstAccessMask := VK_ACCESS_SHADER_READ_BIT |}
  else
    {| image := image transition;
       oldLayout := oldLayout transition;
       newLayout := newLayout transition;
       subresources := subresources transition;
       srcStage := VK_PIPELINE_STAGE_TRANSFER_BIT;
       srcAccessMask := VK_ACCESS_TRANSFER_READ_BIT;
       dstStage := VK_PIPELINE_STAGE_TOP_OF_PIPE_BIT;
       dstAccessMask := 0 |}.

(** ** The calls the blitter makes, and the monad that collects them *)

Inductive Call :=
| TransitionImageLayout (cmdbuffer : VkCommandBuffer)
    (transition : VulkanLayoutTransition)
| CmdResolveImage (cmdbuffer : VkCommandBuffer)
    (srcImage : VkImage) (srcImageLayout : VkImageLayout)
    (dstImage : VkImage) (dstImageLayout : VkImageLayout)
    (regions : list VkImageResolve)
| CmdBlitImage (cmdbuffer : VkCommandBuffer)
    (srcImage : VkImage) (srcImageLayout : VkImageLayout)
    (dstImage : VkImage) (dstImageLayout : VkImageLayout)
    (regions : list VkImageBlit) (filter : VkFilter)
| CreateShaderModule (dev : VkDevice) (info : VkShaderModuleCreateInfo)
| DestroyShaderModule (dev : VkDevice) (module : VkShaderModule).

(** The fields of the [VulkanBlitter] object. *)
Record VulkanBlitter := {
  mContext : VulkanContext;
  mVertex : VkShaderModule;
  mFragment : VkShaderModule
}.

(** The object together with the calls made so far, oldest first. *)
Record World := {
  this : VulkanBlitter;
  calls : list Call
}.

Inductive Outcome (A : Type) :=
| Returned (a : A)
| Fatal (why : string).
Arguments Returned {A} a.
Arguments Fatal {A} why.

(** A method either returns or stops the program; in both cases the calls
    made up to that point have been made. *)
Definition Exec (A : Type) := World -> Outcome A * World.

Definition ret {A} (a : A) : Exec A := fun w => (Returned a, w).

Definition bind {A B} (m : Exec A) (k : A -> Exec B) : Exec B :=
  fun w =>
    match m w with
    | (Returned a, w') => k a w'
    | (Fatal why, w') => (Fatal why, w')
    end.

Notation "x <- m ;; k" := (bind m (fun x => k))
  (at level 61, m at next level, right associativity).
Notation "m ;; k" := (bind m (fun _ => k))
  (at level 61, right associativity).

Definition call (c : Call) : Exec unit :=
  fun w => (Returned tt, {| this := this w; calls := calls w ++ [c] |}).

Definition getThis : Exec VulkanBlitter := fun w => (Returned (this w), w).

Definition setThis (b : VulkanBlitter) : Exec unit :=
  fun w => (Returned tt, {| this := b; calls := calls w |}).

Definition getCalls : Exec (list Call) := fun w => (Returned (calls w), w).

Definition panic {A} (why : string) : Exec A := fun w => (Fatal why, w).

(** Modelled from the spec: the definition of the macro [assert_invariant]
    (utils library) is missing.  The spec calls its failure a fatal
    invariant violation that terminates the operation irrecoverably. *)
Definition assert_invariant (e : bool) (why : string) : Exec unit :=
  if e then ret tt else panic why.

(** Modelled from the spec: the definition of the macro
    [ASSERT_POSTCONDITION] (utils/Panic.h) is missing.  The spec treats a
    failed shader-module creation as fatal. *)
Definition ASSERT_POSTCONDITION (e : bool) (why : string) : Exec unit :=
  if e then ret tt else panic why.

(** Modelled from the spec: the definition of the macro
    [ASSERT_POSTCONDITION_NON_FATAL] (utils/Panic.h) is missing.  The spec's
    diagnostic is non-fatal and silent; the macro yields the truth value of
    its condition. *)
Definition ASSERT_POSTCONDITION_NON_FATAL (e : bool) (why : string) : bool := e.

Definition transitionImageLayout (cmdbuffer : VkCommandBuffer)
    (transition : VulkanLayoutTransition) : Exec unit :=
  call (TransitionImageLayout cmdbuffer transition).

Definition vkCmdResolveImage (cmdbuffer : VkCommandBuffer)
    (srcImage : VkImage) (srcImageLayout : VkImageLayout)
    (dstImage : VkImage) (dstImageLayout : VkImageLayout)
    (regions : list VkImageResolve) : Exec unit :=
  call (CmdResolveImage cmdbuffer srcImage srcImageLayout
          dstImage dstImageLayout regions).

Definition vkCmdBlitImage (cmdbuffer : VkCommandBuffer)
    (srcImage : VkImage) (srcImageLayout : VkImageLayout)
    (dstImage : VkImage) (dstImageLayout : VkImageLayout)
    (regions : list VkImageBlit) (flt : VkFilter) : Exec unit :=
  call (CmdBlitImage cmdbuffer srcImage srcImageLayout
          dstImage dstImageLayout regions flt).

Definition vkDestroyShaderModule (dev : VkDevice) (module : VkShaderModule)
  : Exec unit :=
  call (DestroyShaderModule dev module).

(** A null test on an optional texture followed by a test of one of its
    fields: [tex && p(tex)]. *)
Definition texture_and (tex : option VulkanTexture)
    (p : VulkanTexture -> bool) : bool :=
  match tex with
  | Some t => p t
  | None => false
  end.

(** ** Reading a list of calls *)

Definition is_transition (c : Call) : bool :=
  match c with TransitionImageLayout _ _ => true | _ => false end.

Definition is_resolve (c : Call) : bool :=
  match c with CmdResolveImage _ _ _ _ _ _ => true | _ => false end.

Definition is_blit (c : Call) : bool :=
  match c with CmdBlitImage _ _ _ _ _ _ _ => true | _ => false end.

Definition is_copy (c : Call) : bool := is_resolve c || is_blit c.

Definition is_create (c : Call) : bool :=
  match c with CreateShaderModule _ _ => true | _ => false end.

(** The sample count an attachment carries: the source reaches it only
    through the backing texture ([src.texture->samples]), so an attachment
    without a texture has none. *)
Definition sampleCount (a : VulkanAttachment) : option Z :=
  option_map samples (texture a).

(** "The sample count of [a] is greater than 1", "... equals 1". *)
Definition multisampled (a : VulkanAttachment) : Prop :=
  exists n, sampleCount a = Some n /\ n > 1.

Definition singlesampled (a : VulkanAttachment) : Prop :=
  sampleCount a = Some 1.

(** What one copy call can leave in the list of calls: both entry barriers,
    the copy command and the exit barriers; or the two entry barriers
    alone. *)
Definition records_copy (cmdbuffer : VkCommandBuffer) (new : list Call)
  : Prop :=
  exists t1 t2 copy exits,
    new = TransitionImageLayout cmdbuffer t1
          :: TransitionImageLayout cmdbuffer t2 :: copy :: exits /\
    is_copy copy = true /\ forallb is_transition exits = true.

Definition records_entry_only (cmdbuffer : VkCommandBuffer) (new : list Call)
  : Prop :=
  exists t1 t2,
    new = [TransitionImageLayout cmdbuffer t1;
           TransitionImageLayout cmdbuffer t2].

(** The command buffer a recorded command goes to; the shader-module calls
    go to the device instead. *)
Definition call_cmdbuffer (c : Call) : option VkCommandBuffer :=
  match c with
  | TransitionImageLayout cb _ => Some cb
  | CmdResolveImage cb _ _ _ _ _ => Some cb
  | CmdBlitImage cb _ _ _ _ _ _ => Some cb
  | CreateShaderModule _ _ => None
  | DestroyShaderModule _ _ => None
  end.

(** The transition a barrier call carries. *)
Definition barrier_of (c : Call) : option VulkanLayoutTransition :=
  match c with
  | TransitionImageLayout _ t => Some t
  | _ => None
  end.

(** The image a copy command reads, with the layout it expects it in, and
    the image it writes, with its layout. *)
Definition copy_source (c : Call) : option (VkImage * VkImageLayout) :=
  match c with
  | CmdResolveImage _ img lay _ _ _ => Some (img, lay)
  | CmdBlitImage _ img lay _ _ _ _ => Some (img, lay)
  | _ => None
  end.

Definition copy_destination (c : Call) : option (VkImage * VkImageLayout) :=
  match c with
  | CmdResolveImage _ _ _ img lay _ => Some (img, lay)
  | CmdBlitImage _ _ _ img lay _ _ => Some (img, lay)
  | _ => None
  end.

(** The subresources the regions of a copy command read and write, region
    by region. *)
Definition copy_regions (c : Call)
  : list (VkImageSubresourceLayers * VkImageSubresourceLayers) :=
  match c with
  | CmdResolveImage _ _ _ _ _ regions =>
      map (fun r => (res_srcSubresource r, res_dstSubresource r)) regions
  | CmdBlitImage _ _ _ _ _ regions _ =>
      map (fun r => (blit_srcSubresource r, blit_dstSubresource r)) regions
  | _ => []
  end.

(** The subresource range a region's subresource occupies: its one mip
    level and its layers. *)
Definition range_of_layers (l : VkImageSubresourceLayers)
  : VkImageSubresourceRange :=
  {| aspectMask := sl_aspectMask l;
     baseMipLevel := sl_mipLevel l;
     levelCount := 1;
     baseArrayLayer := sl_baseArrayLayer l;
     layerCount := sl_layerCount l |}.

(** ** Sample data

    Concrete textures, attachments, render targets and collaborators on
    which the statements below are exercised. *)

Module Sample.

Definition msaaTexture : VulkanTexture := {| samples := 4; usage := 0x1 |}.
Definition plainTexture : VulkanTexture := {| samples := 1; usage := 0x8 |}.

Definition attachment (tex : option VulkanTexture) (img : VkImage)
  : VulkanAttachment :=
  {| att_format := 37; att_image := img; texture := tex;
     att_layout := VK_IMAGE_LAYOUT_PRESENT_SRC_KHR; level := 0; layer := 0 |}.

Definition msaa : VulkanAttachment := attachment (Some msaaTexture) 11.
Definition plain : VulkanAttachment := attachment (Some plainTexture) 12.
Definition bare : VulkanAttachment := attachment None 13.

(** Attachable textures live in GENERAL, all others are read-only. *)
Definition getTextureLayout (u : TextureUsage) : VkImageLayout :=
  if Z.land u 0x3 =? 0 then VK_IMAGE_LAYOUT_SHADER_READ_ONLY_OPTIMAL
  else VK_IMAGE_LAYOUT_GENERAL.

Definition getSwapChainAttachment (c : VulkanContext) : VulkanAttachment :=
  bare.

Definition optimalTilingFeatures (gpu : VkPhysicalDevice) (f : VkFormat)
  : Z := 0.

(** A driver that always succeeds and hands out fresh non-null handles. *)
Definition driver (history : list Call) (dev : VkDevice)
    (info : VkShaderModuleCreateInfo) : VkResult * VkShaderModule :=
  (VK_SUCCESS, 100 + Z.of_nat (List.length history)).

Definition context (headless : VkQueue) : VulkanContext :=
  {| device := 7; physicalDevice := 8;
     currentSurface := {| headlessQueue := headless |} |}.

(** A freshly constructed blitter: no shader module yet, no call made. *)
Definition fresh (headless : VkQueue) : World :=
  {| this := {| mContext := context headless;
                mVertex := VK_NULL_HANDLE; mFragment := VK_NULL_HANDLE |};
     calls := [] |}.

(** A blitter whose shader modules exist. *)
Definition ready (headless : VkQueue) : World :=
  {| this := {| mContext := context headless;
                mVertex := 100; mFragment := 101 |};
     calls := [] |}.

Definition target (color depth : VulkanAttachment) : VulkanRenderTarget :=
  {| getExtent := {| width := 640; height := 480 |};
     getColor := fun _ => color;
     getDepth := depth |}.

Definition origin : VkOffset3D := {| off_x := 0; off_y := 0; off_z := 0 |}.
Definition corner : VkOffset3D := {| off_x := 640; off_y := 480; off_z := 1 |}.
Definition rect : VkOffset3D * VkOffset3D := (origin, corner).

Definition cmdbuffer : VkCommandBuffer := 5.

Definition shaderCode : list Z := [119734787].

End Sample.

(** More sample data: two requests that differ only in what the entry
    points do not read, and drivers that fail. *)

Module Scenario.

Definition colorArgs : BlitArgs :=
  {| dstTarget := Sample.target Sample.plain Sample.plain;
     dstRectPair := Sample.rect;
     srcTarget := Sample.target Sample.msaa Sample.msaa;
     srcRectPair := Sample.rect;
     filter := VK_FILTER_LINEAR;
     targetIndex := 0 |}.

Definition colorArgs' : BlitArgs :=
  {| dstTarget := Sample.target Sample.plain Sample.bare;
     dstRectPair := Sample.rect;
     srcTarget := Sample.target Sample.msaa Sample.plain;
     srcRectPair := Sample.rect;
     filter := VK_FILTER_LINEAR;
     targetIndex := 3 |}.

Definition depthArgs : BlitArgs :=
  {| dstTarget := Sample.target Sample.plain Sample.plain;
     dstRectPair := Sample.rect;
     srcTarget := Sample.target Sample.msaa Sample.msaa;
     srcRectPair := Sample.rect;
     filter := VK_FILTER_NEAREST;
     targetIndex := 0 |}.

Definition VK_ERROR_OUT_OF_HOST_MEMORY : VkResult := -1.

(** A driver that cannot create any shader module. *)
Definition noVertex (history : list Call) (dev : VkDevice)
    (info : VkShaderModuleCreateInfo) : VkResult * VkShaderModule :=
  (VK_ERROR_OUT_OF_HOST_MEMORY, VK_NULL_HANDLE).

(** A driver that creates one shader module and then runs out of memory. *)
Definition noFragment (history : list Call) (dev : VkDevice)
    (info : VkShaderModuleCreateInfo) : VkResult * VkShaderModule :=
  match history with
  | [] => (VK_SUCCESS, 100)
  | _ => (VK_ERROR_OUT_OF_HOST_MEMORY, VK_NULL_HANDLE)
  end.

(** A blitter that was never given a device. *)
Definition deviceless : World :=
  {| this := {| mContext := {| device := VK_NULL_HANDLE; physicalDevice := 8;
                               currentSurface := {| headlessQueue := 0 |} |};
                mVertex := VK_NULL_HANDLE; mFragment := VK_NULL_HANDLE |};
     calls := [] |}.

End Scenario.

(** ** The methods of VulkanBlitter *)

Section Blitter.

(** Collaborators whose code lives in other files of the backend. *)
Variable getTextureLayout : TextureUsage -> VkImageLayout.
Variable getSwapChainAttachment : VulkanContext -> VulkanAttachment.

(** [vkGetPhysicalDeviceFormatProperties(gpu, format, &info)], read at
    [info.optimalTilingFeatures]. *)
Variable optimalTilingFeatures : VkPhysicalDevice -> VkFormat -> Z.

(** The driver's answer to [vkCreateShaderModule]: the result code and the
    handle it stores through the out-pointer, as a function of the calls
    made before and of the arguments. *)
Variable driverCreateShaderModule :
  list Call -> VkDevice -> VkShaderModuleCreateInfo -> VkResult * VkShaderModule.

(** generated/vkshaders/vkshaders.h *)
Variable VKSHADERS_BLITCOLORVS_SIZE : Z.
Variable VKSHADERS_BLITCOLORVS_DATA : list Z.
Variable VKSHADERS_BLITCOLORFS_SIZE : Z.
Variable VKSHADERS_BLITCOLORFS_DATA : list Z.

Definition vkCreateShaderModule (dev : VkDevice)
    (info : VkShaderModuleCreateInfo) : Exec (VkResult * VkShaderModule) :=
  history <- getCalls ;;
  call (CreateShaderModule dev info) ;;
  ret (driverCreateShaderModule history dev info).

Definition blitFast (aspect : VkImageAspectFlags) (flt : VkFilter)
    (srcTarget : VulkanRenderTarget) (src dst : VulkanAttachment)
    (srcRect dstRect : VkOffset3D * VkOffset3D)
    (cmdbuffer : VkCommandBuffer) : Exec unit :=
  let blitRegions := [
    {| blit_srcSubresource :=
         {| sl_aspectMask := aspect; sl_mipLevel := level src;
            sl_baseArrayLayer := layer src; sl_layerCount := 1 |};
       blit_srcOffsets := (fst srcRect, snd srcRect);
       blit_dstSubresource :=
         {| sl_aspectMask := aspect; sl_mipLevel := level dst;
            sl_baseArrayLayer := layer dst; sl_layerCount := 1 |};
       blit_dstOffsets := (fst dstRect, snd dstRect) |} ] in
  let srcExtent := getExtent srcTarget in
  let resolveRegions := [
    {| res_srcSubresource :=
         {| sl_aspectMask := aspect; sl_mipLevel := level src;
            sl_baseArrayLayer := layer src; sl_layerCount := 1 |};
       res_srcOffset := fst srcRect;
       res_dstSubresource :=
         {| sl_aspectMask := aspect; sl_mipLevel := level dst;
            sl_baseArrayLayer := layer dst; sl_layerCount := 1 |};
       res_dstOffset := fst dstRect;
       res_extent :=
         {| ext_width := width srcExtent; ext_height := height srcExtent;
            ext_depth := 1 |} |} ] in
  let srcRange :=
    {| aspectMask := aspect; baseMipLevel := level src; levelCount := 1;
       baseArrayLayer := layer src; layerCount := 1 |} in
  let dstRange :=
    {| aspectMask := aspect; baseMipLevel := level dst; levelCount := 1;
       baseArrayLayer := layer dst; layerCount := 1 |} in
  transitionImageLayout cmdbuffer
    {| image := att_image src;
       oldLayout := VK_IMAGE_LAYOUT_UNDEFINED;
       newLayout := VK_IMAGE_LAYOUT_TRANSFER_SRC_OPTIMAL;
       subresources := srcRange;
       srcStage := VK_PIPELINE_STAGE_BOTTOM_OF_PIPE_BIT;
       srcAccessMask := 0;
       dstStage := VK_PIPELINE_STAGE_TRANSFER_BIT;
       dstAccessMask := VK_ACCESS_TRANSFER_READ_BIT |} ;;
  transitionImageLayout cmdbuffer
    {| image := att_image dst;
       oldLayout := VK_IMAGE_LAYOUT_UNDEFINED;
       newLayout := VK_IMAGE_LAYOUT_TRANSFER_DST_OPTIMAL;
       subresources := dstRange;
       srcStage := VK_PIPELINE_STAGE_BOTTOM_OF_PIPE_BIT;
       srcAccessMask := 0;
       dstStage := VK_PIPELINE_STAGE_TRANSFER_BIT;
       dstAccessMask := VK_ACCESS_TRANSFER_WRITE_BIT |} ;;
  (if texture_and (texture src) (fun t => samples t >? 1)
      && texture_and (texture dst) (fun t => samples t =? 1)
   then
     assert_invariant (negb (aspect =? VK_IMAGE_ASPECT_DEPTH_BIT))
       "Resolve with depth is not yet supported." ;;
     vkCmdResolveImage cmdbuffer (att_image src)
       VK_IMAGE_LAYOUT_TRANSFER_SRC_OPTIMAL (att_image dst)
       VK_IMAGE_LAYOUT_TRANSFER_DST_OPTIMAL resolveRegions
   else
     vkCmdBlitImage cmdbuffer (att_image src)
       VK_IMAGE_LAYOUT_TRANSFER_SRC_OPTIMAL (att_image dst)
       VK_IMAGE_LAYOUT_TRANSFER_DST_OPTIMAL blitRegions flt) ;;
  self <- getThis ;;
  match texture src with
  | Some t =>
      transitionImageLayout cmdbuffer (transitionHelper
        {| image := att_image src;
           oldLayout := VK_IMAGE_LAYOUT_UNDEFINED;
           newLayout := getTextureLayout (usage t);
           subresources := srcRange;
           srcStage := 0; srcAccessMask := 0;
           dstStage := 0; dstAccessMask := 0 |})
  | None =>
      if headlessQueue (currentSurface (mContext self)) =? VK_NULL_HANDLE
      then
        transitionImageLayout cmdbuffer (transitionHelper
          {| image := att_image src;
             oldLayout := VK_IMAGE_LAYOUT_UNDEFINED;
             newLayout := VK_IMAGE_LAYOUT_COLOR_ATTACHMENT_OPTIMAL;
             subresources := srcRange;
             srcStage := 0; srcAccessMask := 0;
             dstStage := 0; dstAccessMask := 0 |})
      else ret tt
  end ;;
  let desiredLayout :=
    match texture dst with
    | Some t => getTextureLayout (usage t)
    | None => att_layout (getSwapChainAttachment (mContext self))
    end in
  transitionImageLayout cmdbuffer (transitionHelper
    {| image := att_image dst;
       oldLayout := VK_IMAGE_LAYOUT_UNDEFINED;
       newLayout := desiredLayout;
       subresources := dstRange;
       srcStage := 0; srcAccessMask := 0;
       dstStage := 0; dstAccessMask := 0 |}).

Definition lazyInit : Exec unit :=
  self <- getThis ;;
  if negb (mVertex self =? VK_NULL_HANDLE) then ret tt
  else
    assert_invariant (negb (device (mContext self) =? VK_NULL_HANDLE))
      "mContext.device" ;;
    r <- vkCreateShaderModule (device (mContext self))
           {| sType := VK_STRUCTURE_TYPE_SHADER_MODULE_CREATE_INFO;
              pNext := 0; flags := 0;
              codeSize := VKSHADERS_BLITCOLORVS_SIZE;
              pCode := VKSHADERS_BLITCOLORVS_DATA |} ;;
    setThis {| mContext := mContext self; mVertex := snd r;
               mFragment := mFragment self |} ;;
    ASSERT_POSTCONDITION (fst r =? VK_SUCCESS)
      "Unable to create vertex shader for blit." ;;
    r' <- vkCreateShaderModule (device (mContext self))
            {| sType := VK_STRUCTURE_TYPE_SHADER_MODULE_CREATE_INFO;
               pNext := 0; flags := 0;
               codeSize := VKSHADERS_BLITCOLORFS_SIZE;
               pCode := VKSHADERS_BLITCOLORFS_DATA |} ;;
    setThis {| mContext := mContext self; mVertex := snd r;
               mFragment := snd r' |} ;;
    ASSERT_POSTCONDITION (fst r' =? VK_SUCCESS)
      "Unable to create fragment shader for blit.".

Definition shutdown : Exec unit :=
  self <- getThis ;;
  if negb (device (mContext self) =? VK_NULL_HANDLE) then
    vkDestroyShaderModule (device (mContext self)) (mVertex self) ;;
    vkDestroyShaderModule (device (mContext self)) (mFragment self)
  else ret tt.

(** The block under [#if FILAMENT_VULKAN_CHECK_BLIT_FORMAT]: [true] when
    the method goes on to [blitFast], [false] when it returns early. *)
Definition formatsBlittable (enabled : bool) (gpu : VkPhysicalDevice)
    (src dst : VulkanAttachment) (srcWhy dstWhy : string) : bool :=
  if enabled then
    if negb (ASSERT_POSTCONDITION_NON_FATAL
               (negb (Z.land (optimalTilingFeatures gpu (att_format src))
                        VK_FORMAT_FEATURE_BLIT_SRC_BIT =? 0))
               srcWhy)
    then false
    else if negb (ASSERT_POSTCONDITION_NON_FATAL
                    (negb (Z.land (optimalTilingFeatures gpu (att_format dst))
                             VK_FORMAT_FEATURE_BLIT_DST_BIT =? 0))
                    dstWhy)
    then false
    else true
  else true.

(** [blitColor] and [blitDepth] for either setting of the compile-time
    switch. *)
Definition blitColorWith (check : bool) (cmdBuffer : VkCommandBuffer)
    (args : BlitArgs) : Exec unit :=
  lazyInit ;;
  let src := getColor (srcTarget args) (targetIndex args) in
  let dst := getColor (dstTarget args) 0 in
  let aspect := VK_IMAGE_ASPECT_COLOR_BIT in
  self <- getThis ;;
  if formatsBlittable check (physicalDevice (mContext self)) src dst
       "Source format is not blittable"
       "Destination format is not blittable" then
    blitFast aspect (filter args) (srcTarget args) src dst
      (srcRectPair args) (dstRectPair args) cmdBuffer
  else ret tt.

Definition blitDepthWith (check : bool) (cmdBuffer : VkCommandBuffer)
    (args : BlitArgs) : Exec unit :=
  lazyInit ;;
  let src := getDepth (srcTarget args) in
  let dst := getDepth (dstTarget args) in
  let aspect := VK_IMAGE_ASPECT_DEPTH_BIT in
  self <- getThis ;;
  if formatsBlittable check (physicalDevice (mContext self)) src dst
       "Depth format is not blittable"
       "Depth format is not blittable" then
    blitFast aspect (filter args) (srcTarget args) src dst
      (srcRectPair args) (dstRectPair args) cmdBuffer
  else ret tt.

Definition blitColor := blitColorWith FILAMENT_VULKAN_CHECK_BLIT_FORMAT.
Definition blitDepth := blitDepthWith FILAMENT_VULKAN_CHECK_BLIT_FORMAT.


(** ** Properties *)

Set Default Proof Using "Type".

Ltac run_exec :=
  unfold blitColor, blitDepth, blitColorWith, blitDepthWith, blitFast,
    lazyInit, shutdown, vkCreateShaderModule, vkDestroyShaderModule,
    transitionImageLayout, vkCmdResolveImage, vkCmdBlitImage,
    assert_invariant, ASSERT_POSTCONDITION, getThis, setThis, getCalls,
    call, panic, ret, bind;
  cbn [fst snd this calls mContext mVertex mFragment].

Ltac conj := repeat match goal with |- _ /\ _ => split end;
  try assumption; try reflexivity.

Ltac tidy :=
  cbn [negb andb fst snd this calls mContext mVertex mFragment];
  rewrite <- ?app_assoc; cbn [app].

(** The test that guards the resolve branch says what it reads as. *)
Lemma resolve_test_iff (src dst : VulkanAttachment) :
  texture_and (texture src) (fun t => samples t >? 1)
    && texture_and (texture dst) (fun t => samples t =? 1) = true
  <-> multisampled src /\ singlesampled dst.
Proof.
  unfold multisampled, singlesampled, sampleCount.
  destruct (texture src) as [ts|], (texture dst) as [td|]; cbn.
  - rewrite andb_true_iff, Z.gtb_lt, Z.eqb_eq. split.
    + intros [Hs Hd]. split; [exists (samples ts); split; [reflexivity | lia]
                              | now rewrite Hd].
    + intros [[n [Hn Hgt]] Hd]. injection Hn as <-. injection Hd as ->.
      split; [lia | reflexivity].
  - rewrite andb_false_r. split; [discriminate | intros [_ H]; discriminate].
  - split; [discriminate | intros [[n [H _]] _]; discriminate].
  - split; [discriminate | intros [[n [H _]] _]; discriminate].
Qed.

Lemma resolve_test_false (src dst : VulkanAttachment) :
  ~ (multisampled src /\ singlesampled dst) ->
  texture_and (texture src) (fun t => samples t >? 1)
    && texture_and (texture dst) (fun t => samples t =? 1) = false.
Proof.
  intros H. apply not_true_is_false. intros E. apply H.
  now apply resolve_test_iff.
Qed.

(** Everything [blitFast] does, by cases on the two tests it makes before
    the copy command; the statements below are read off this lemma. *)
Lemma blitFast_run aspect flt srcTarget src dst srcRect dstRect cmdbuffer w :
  let r := blitFast aspect flt srcTarget src dst srcRect dstRect cmdbuffer w in
  this (snd r) = this w /\
  exists t1 t2,
    let e1 := TransitionImageLayout cmdbuffer t1 in
    let e2 := TransitionImageLayout cmdbuffer t2 in
    (multisampled src /\ singlesampled dst /\
     aspect = VK_IMAGE_ASPECT_DEPTH_BIT /\
     fst r = Fatal "Resolve with depth is not yet supported." /\
     calls (snd r) = calls w ++ [e1; e2])
    \/
    (exists copy exits,
       fst r = Returned tt /\
       calls (snd r) = calls w ++ e1 :: e2 :: copy :: exits /\
       forallb is_transition exits = true /\
       ((multisampled src /\ singlesampled dst /\
         aspect <> VK_IMAGE_ASPECT_DEPTH_BIT /\ is_resolve copy = true)
        \/
        (~ (multisampled src /\ singlesampled dst) /\
         is_blit copy = true))).
Proof.
  cbv zeta. run_exec.
  destruct (texture_and (texture src) (fun t => samples t >? 1)
            && texture_and (texture dst) (fun t => samples t =? 1)) eqn:Hc.
  - apply resolve_test_iff in Hc. destruct Hc as [Hs Hd].
    destruct (aspect =? VK_IMAGE_ASPECT_DEPTH_BIT) eqn:Ea; tidy.
    + apply Z.eqb_eq in Ea. split; [reflexivity|].
      do 2 eexists. left. conj.
    + apply Z.eqb_neq in Ea. 
      destruct (texture src) as [ts|];
        [| destruct (headlessQueue (currentSurface (mContext (this w)))
                     =? VK_NULL_HANDLE)]; tidy;
        (split; [reflexivity|]); do 2 eexists;
        right; do 2 eexists; (split; [reflexivity|]);
        (split; [reflexivity|]); (split; [reflexivity|]);
        left; conj.
  - assert (Hn : ~ (multisampled src /\ singlesampled dst)).
    { intros H. apply resolve_test_iff in H. congruence. }
    clear Hc. tidy.
    destruct (texture src) as [ts|];
      [| destruct (headlessQueue (currentSurface (mContext (this w)))
                   =? VK_NULL_HANDLE)]; tidy;
      (split; [reflexivity|]); do 2 eexists;
      right; do 2 eexists; (split; [reflexivity|]);
      (split; [reflexivity|]); (split; [reflexivity|]);
      right; (split; [exact Hn | reflexivity]).
Qed.

Lemma multisampled_texture (a : VulkanAttachment) :
  multisampled a -> exists t, texture a = Some t /\ samples t > 1.
Proof.
  unfold multisampled, sampleCount. intros [n [Hn Hgt]].
  destruct (texture a) as [t|]; [| discriminate].
  injection Hn as <-. now exists t.
Qed.

Lemma singlesampled_texture (a : VulkanAttachment) :
  singlesampled a -> exists t, texture a = Some t /\ samples t = 1.
Proof.
  unfold singlesampled, sampleCount. intros H.
  destruct (texture a) as [t|]; [| discriminate].
  injection H as H. now exists t.
Qed.

Lemma transitionHelper_frame (t : VulkanLayoutTransition) :
  image (transitionHelper t) = image t /\
  oldLayout (transitionHelper t) = oldLayout t /\
  newLayout (transitionHelper t) = newLayout t /\
  subresources (transitionHelper t) = subresources t.
Proof.
  unfold transitionHelper.
  destruct ((newLayout t =? VK_IMAGE_LAYOUT_SHADER_READ_ONLY_OPTIMAL)
            || (newLayout t =? VK_IMAGE_LAYOUT_GENERAL)); now cbn.
Qed.

(** Splits a run of [blitFast] along the tests the method makes: the
    resolve test (and then the aspect), the source texture (and then the
    surface), the destination texture. *)
Ltac blit_cases src dst aspect w :=
  run_exec;
  let Hc := fresh "Hc" in
  destruct (texture_and (texture src) (fun t => samples t >? 1)
            && texture_and (texture dst) (fun t => samples t =? 1)) eqn:Hc;
  [ apply resolve_test_iff in Hc;
    let Hs := fresh "Hs" in let Hd := fresh "Hd" in
    destruct Hc as [Hs Hd];
    let Ea := fresh "Ea" in
    destruct (aspect =? VK_IMAGE_ASPECT_DEPTH_BIT) eqn:Ea;
    [ apply Z.eqb_eq in Ea | apply Z.eqb_neq in Ea ]
  | let Hn := fresh "Hn" in
    assert (Hn : ~ (multisampled src /\ singlesampled dst))
      by (let H := fresh in intros H; apply resolve_test_iff in H; congruence);
    clear Hc ];
  tidy;
  let Ets := fresh "Ets" in let Eh := fresh "Eh" in
  (destruct (texture src) as [?ts|] eqn:Ets;
   [| destruct (headlessQueue (currentSurface (mContext (this w)))
                =? VK_NULL_HANDLE) eqn:Eh;
      [ apply Z.eqb_eq in Eh | apply Z.eqb_neq in Eh ] ]);
  let Etd := fresh "Etd" in
  destruct (texture dst) as [?td|] eqn:Etd;
  tidy.

(** A resolve needs both textures: the cases in which one is missing and
    the resolve test passed do not arise. *)
Ltac no_texture :=
  match goal with
  | Hs : multisampled ?a, E : texture ?a = None |- _ =>
      exfalso; destruct (multisampled_texture a Hs) as [? [? _]]; congruence
  | Hd : singlesampled ?a, E : texture ?a = None |- _ =>
      exfalso; destruct (singlesampled_texture a Hd) as [? [? _]]; congruence
  end.

(** Closes a case whose hypotheses contradict each other. *)
Ltac absurd_case :=
  exfalso;
  match goal with
  | Hn : ~ (multisampled ?a /\ singlesampled ?b),
    Hs : multisampled ?a, Hd : singlesampled ?b |- _ =>
      exact (Hn (conj Hs Hd))
  | Hne : ?x <> ?y, He : ?x = ?y |- _ => exact (Hne He)
  | Hne : ?x <> ?x |- _ => exact (Hne eq_refl)
  | Hn : ~ (?x = ?y /\ _), He : ?x = ?y |- _ => apply Hn; conj
  end.

Ltac unpack :=
  repeat match goal with
    | |- _ /\ _ => split
    | |- _ <-> _ => split
    | |- _ -> _ => intro
    | H : _ /\ _ |- _ => destruct H
    | H : _ \/ _ |- _ => destruct H
    | H : Some _ = None |- _ => discriminate H
    | H : None = Some _ |- _ => discriminate H
    | H : Some _ = Some _ |- _ => injection H as <-
    end.

Ltac settle :=
  first [ reflexivity | discriminate | assumption | absurd_case
        | eexists; reflexivity ].

(** C4. The layout-transition policy is a total function of the target
    layout alone.  For a target layout of shader-read-only or general it
    yields srcAccessMask = transfer-write, dstAccessMask = shader-read,
    srcStage = transfer, dstStage = fragment-shader; for every other target
    layout, color-attachment-optimal and present-source among them, it
    yields srcAccessMask = transfer-read, dstAccessMask = none, srcStage =
    transfer, dstStage = top-of-pipe.  It touches nothing else, and two
    transitions with the same target layout get the same four values. *)
Theorem transitionHelper_policy (t : VulkanLayoutTransition) :
  (newLayout t = VK_IMAGE_LAYOUT_SHADER_READ_ONLY_OPTIMAL \/
   newLayout t = VK_IMAGE_LAYOUT_GENERAL ->
   srcAccessMask (transitionHelper t) = VK_ACCESS_TRANSFER_WRITE_BIT /\
   dstAccessMask (transitionHelper t) = VK_ACCESS_SHADER_READ_BIT /\
   srcStage (transitionHelper t) = VK_PIPELINE_STAGE_TRANSFER_BIT /\
   dstStage (transitionHelper t) = VK_PIPELINE_STAGE_FRAGMENT_SHADER_BIT) /\
  (newLayout t <> VK_IMAGE_LAYOUT_SHADER_READ_ONLY_OPTIMAL ->
   newLayout t <> VK_IMAGE_LAYOUT_GENERAL ->
   srcAccessMask (transitionHelper t) = VK_ACCESS_TRANSFER_READ_BIT /\
   dstAccessMask (transitionHelper t) = 0 /\
   srcStage (transitionHelper t) = VK_PIPELINE_STAGE_TRANSFER_BIT /\
   dstStage (transitionHelper t) = VK_PIPELINE_STAGE_TOP_OF_PIPE_BIT) /\
  (newLayout t = VK_IMAGE_LAYOUT_COLOR_ATTACHMENT_OPTIMAL \/
   newLayout t = VK_IMAGE_LAYOUT_PRESENT_SRC_KHR ->
   srcAccessMask (transitionHelper t) = VK_ACCESS_TRANSFER_READ_BIT /\
   dstAccessMask (transitionHelper t) = 0 /\
   srcStage (transitionHelper t) = VK_PIPELINE_STAGE_TRANSFER_BIT /\
   dstStage (transitionHelper t) = VK_PIPELINE_STAGE_TOP_OF_PIPE_BIT) /\
  (image (transitionHelper t) = image t /\
   oldLayout (transitionHelper t) = oldLayout t /\
   newLayout (transitionHelper t) = newLayout t /\
   subresources (transitionHelper t) = subresources t) /\
  (forall t' : VulkanLayoutTransition,
     newLayout t' = newLayout t ->
     srcAccessMask (transitionHelper t') = srcAccessMask (transitionHelper t) /\
     dstAccessMask (transitionHelper t') = dstAccessMask (transitionHelper t) /\
     srcStage (transitionHelper t') = srcStage (transitionHelper t) /\
     dstStage (transitionHelper t') = dstStage (transitionHelper t)).
Proof.
  split; [| split; [| split; [| split]]].
  - intros H. unfold transitionHelper.
    replace ((newLayout t =? VK_IMAGE_LAYOUT_SHADER_READ_ONLY_OPTIMAL)
             || (newLayout t =? VK_IMAGE_LAYOUT_GENERAL)) with true; [now cbn|].
    symmetry. apply orb_true_iff. rewrite !Z.eqb_eq. exact H.
  - intros H1 H2. unfold transitionHelper.
    apply Z.eqb_neq in H1, H2. rewrite H1, H2. now cbn.
  - intros H. unfold transitionHelper.
    destruct H as [H | H]; rewrite H; now cbn.
  - apply transitionHelper_frame.
  - intros t' E. unfold transitionHelper. rewrite E.
    destruct ((newLayout t =? VK_IMAGE_LAYOUT_SHADER_READ_ONLY_OPTIMAL)
              || (newLayout t =? VK_IMAGE_LAYOUT_GENERAL)); now cbn.
Qed.

(** C5. Every copy call first records a barrier that takes the source
    image's single-level, single-layer subresource range from layout
    undefined to transfer-source-optimal with srcStage = bottom-of-pipe,
    srcAccessMask = none, dstStage = transfer, dstAccessMask =
    transfer-read, and second a barrier that takes the destination image
    from undefined to transfer-destination-optimal with dstStage =
    transfer, dstAccessMask = transfer-write. *)
Theorem blitFast_entry_barriers
    aspect flt srcTarget src dst srcRect dstRect cmdbuffer w :
  exists rest,
    calls (snd (blitFast aspect flt srcTarget src dst srcRect dstRect
                  cmdbuffer w)) =
    calls w ++
    TransitionImageLayout cmdbuffer
      {| image := att_image src;
         oldLayout := VK_IMAGE_LAYOUT_UNDEFINED;
         newLayout := VK_IMAGE_LAYOUT_TRANSFER_SRC_OPTIMAL;
         subresources :=
           {| aspectMask := aspect; baseMipLevel := level src;
              levelCount := 1; baseArrayLayer := layer src;
              layerCount := 1 |};
         srcStage := VK_PIPELINE_STAGE_BOTTOM_OF_PIPE_BIT;
         srcAccessMask := 0;
         dstStage := VK_PIPELINE_STAGE_TRANSFER_BIT;
         dstAccessMask := VK_ACCESS_TRANSFER_READ_BIT |} ::
    TransitionImageLayout cmdbuffer
      {| image := att_image dst;
         oldLayout := VK_IMAGE_LAYOUT_UNDEFINED;
         newLayout := VK_IMAGE_LAYOUT_TRANSFER_DST_OPTIMAL;
         subresources :=
           {| aspectMask := aspect; baseMipLevel := level dst;
              levelCount := 1; baseArrayLayer := layer dst;
              layerCount := 1 |};
         srcStage := VK_PIPELINE_STAGE_BOTTOM_OF_PIPE_BIT;
         srcAccessMask := 0;
         dstStage := VK_PIPELINE_STAGE_TRANSFER_BIT;
         dstAccessMask := VK_ACCESS_TRANSFER_WRITE_BIT |} ::
    rest.
Proof.
  blit_cases src dst aspect w; eexists; reflexivity.
Qed.

(** C1, amended.  For every copy call, with sample counts read from the
    backing textures: a resolve command is issued exactly when the source
    sample count is greater than 1, the destination sample count equals 1
    and the aspect is not depth, and it is then the only copy command; with
    that sample-count combination and the depth aspect the call stops with
    a fatal invariant violation and issues no copy command; in every other
    sample-count combination (equal counts greater than 1 included) the
    call issues one blit command with the request's filter mode and no
    resolve. *)
Theorem blitFast_copy_choice
    aspect flt srcTarget src dst srcRect dstRect cmdbuffer w :
  let r := blitFast aspect flt srcTarget src dst srcRect dstRect cmdbuffer w in
  exists new,
    calls (snd r) = calls w ++ new /\
    (existsb is_resolve new = true <->
     multisampled src /\ singlesampled dst /\
     aspect <> VK_IMAGE_ASPECT_DEPTH_BIT) /\
    (multisampled src /\ singlesampled dst /\
     aspect <> VK_IMAGE_ASPECT_DEPTH_BIT ->
     fst r = Returned tt /\
     exists regions,
       List.filter is_copy new =
       [CmdResolveImage cmdbuffer
          (att_image src) VK_IMAGE_LAYOUT_TRANSFER_SRC_OPTIMAL
          (att_image dst) VK_IMAGE_LAYOUT_TRANSFER_DST_OPTIMAL regions]) /\
    (multisampled src /\ singlesampled dst /\
     aspect = VK_IMAGE_ASPECT_DEPTH_BIT ->
     (exists why, fst r = Fatal why) /\ List.filter is_copy new = []) /\
    (~ (multisampled src /\ singlesampled dst) ->
     fst r = Returned tt /\
     exists regions,
       List.filter is_copy new =
       [CmdBlitImage cmdbuffer
          (att_image src) VK_IMAGE_LAYOUT_TRANSFER_SRC_OPTIMAL
          (att_image dst) VK_IMAGE_LAYOUT_TRANSFER_DST_OPTIMAL regions flt]).
Proof.
  cbv zeta.
  blit_cases src dst aspect w; try no_texture;
    (eexists; split; [reflexivity|]); cbn [existsb is_resolve orb];
    unpack; settle.
Qed.

(** C2. A copy call with the depth aspect whose source sample count is
    greater than 1 and whose destination sample count equals 1 stops with
    a fatal invariant violation and issues no copy command, neither a
    resolve nor a blit. *)
Theorem blitFast_depth_resolve_fatal
    aspect flt srcTarget src dst srcRect dstRect cmdbuffer w :
  aspect = VK_IMAGE_ASPECT_DEPTH_BIT ->
  multisampled src -> singlesampled dst ->
  let r := blitFast aspect flt srcTarget src dst srcRect dstRect cmdbuffer w in
  fst r = Fatal "Resolve with depth is not yet supported." /\
  exists new,
    calls (snd r) = calls w ++ new /\ existsb is_copy new = false.
Proof.
  intros Ha Hs Hd r.
  destruct (blitFast_run aspect flt srcTarget src dst srcRect dstRect
              cmdbuffer w) as [_ [t1 [t2 H]]].
  fold r in H. cbv zeta in H.
  destruct H as [[_ [_ [_ [Hf Hc]]]] | [copy [exits [_ [_ [_ H]]]]]].
  - split; [exact Hf|]. eexists. split; [exact Hc | reflexivity].
  - exfalso. destruct H as [[_ [_ [Hne _]]] | [Hn _]].
    + now apply Hne.
    + apply Hn. now split.
Qed.

(** C3, amended.  For every copy call that does not stop at the
    depth-resolve invariant violation, the call returns and the barriers
    after the copy command are: for the source, one barrier to the layout
    implied by the backing texture's declared usage when a backing texture
    exists, else one barrier to color-attachment-optimal when the current
    surface is not headless, else none; then, always, one barrier for the
    destination, to the layout implied by its backing texture's usage when
    present, else to the active swapchain attachment's current layout. *)
Theorem blitFast_exit_barriers
    aspect flt srcTarget src dst srcRect dstRect cmdbuffer w :
  ~ (aspect = VK_IMAGE_ASPECT_DEPTH_BIT /\
     multisampled src /\ singlesampled dst) ->
  let r := blitFast aspect flt srcTarget src dst srcRect dstRect cmdbuffer w in
  fst r = Returned tt /\
  exists t1 t2 copy srcExit tdst,
    calls (snd r) =
    calls w ++
    [TransitionImageLayout cmdbuffer t1;
     TransitionImageLayout cmdbuffer t2; copy]
    ++ srcExit ++ [TransitionImageLayout cmdbuffer tdst] /\
    is_copy copy = true /\
    (forall t, texture src = Some t ->
       exists tsrc,
         srcExit = [TransitionImageLayout cmdbuffer tsrc] /\
         image tsrc = att_image src /\
         newLayout tsrc = getTextureLayout (usage t)) /\
    (texture src = None ->
     headlessQueue (currentSurface (mContext (this w))) = VK_NULL_HANDLE ->
     exists tsrc,
       srcExit = [TransitionImageLayout cmdbuffer tsrc] /\
       image tsrc = att_image src /\
       newLayout tsrc = VK_IMAGE_LAYOUT_COLOR_ATTACHMENT_OPTIMAL) /\
    (texture src = None ->
     headlessQueue (currentSurface (mContext (this w))) <> VK_NULL_HANDLE ->
     srcExit = []) /\
    image tdst = att_image dst /\
    (forall t, texture dst = Some t ->
       newLayout tdst = getTextureLayout (usage t)) /\
    (texture dst = None ->
     newLayout tdst =
     att_layout (getSwapChainAttachment (mContext (this w)))).
Proof.
  intros Hok. cbv zeta.
  blit_cases src dst aspect w; try no_texture;
    try (exfalso; apply Hok; now repeat split);
    (split; [reflexivity|]);
    match goal with
    | |- exists _ _ _ _ _, calls w ++ [_; _; _; ?d; _] = _ /\ _ =>
        do 3 eexists; exists [d]; eexists
    | |- exists _ _ _ _ _, calls w ++ [_; _; _; _] = _ /\ _ =>
        do 3 eexists; exists []; eexists
    end;
    (split; [reflexivity|]); unpack;
    repeat match goal with
      | |- exists _, [_] = [_] /\ _ => eexists; split; [reflexivity|]; split
      | |- image (transitionHelper ?x) = _ =>
          rewrite (proj1 (transitionHelper_frame x))
      | |- newLayout (transitionHelper ?x) = _ =>
          rewrite (proj1 (proj2 (proj2 (transitionHelper_frame x))))
      end;
    settle.
Qed.

(** C6. Every copy call that returns records exactly 2 barriers before its
    copy command, and after it exactly 2 barriers when the source has a
    backing texture or the surface is not headless, and exactly 1 barrier
    when the source has no backing texture and the surface is headless. *)
Theorem blitFast_barrier_counts
    aspect flt srcTarget src dst srcRect dstRect cmdbuffer w :
  let r := blitFast aspect flt srcTarget src dst srcRect dstRect cmdbuffer w in
  fst r = Returned tt ->
  exists entry copy exits,
    calls (snd r) = calls w ++ entry ++ copy :: exits /\
    forallb is_transition entry = true /\ List.length entry = 2%nat /\
    is_copy copy = true /\
    forallb is_transition exits = true /\
    (texture src <> None \/
     headlessQueue (currentSurface (mContext (this w))) = VK_NULL_HANDLE ->
     List.length exits = 2%nat) /\
    (texture src = None ->
     headlessQueue (currentSurface (mContext (this w))) <> VK_NULL_HANDLE ->
     List.length exits = 1%nat).
Proof.
  cbv zeta.
  blit_cases src dst aspect w; intros Hret; try discriminate Hret;
    match goal with
    | |- exists _ _ _, calls w ++ [?a; ?b; _; _; _] = _ /\ _ =>
        exists [a; b]; do 2 eexists
    | |- exists _ _ _, calls w ++ [?a; ?b; _; _] = _ /\ _ =>
        exists [a; b]; do 2 eexists
    end;
    (split; [reflexivity|]); unpack; settle.
Qed.

(** C9. For every copy call, a resolve command is issued only when both
    the source and the destination attachment carry a backing texture; if
    either side lacks one, the call returns having issued one blit command
    with the request's filter, whatever the other side's sample count. *)
Theorem blitFast_resolve_needs_textures
    aspect flt srcTarget src dst srcRect dstRect cmdbuffer w :
  let r := blitFast aspect flt srcTarget src dst srcRect dstRect cmdbuffer w in
  exists new,
    calls (snd r) = calls w ++ new /\
    (existsb is_resolve new = true ->
     (exists ts, texture src = Some ts) /\
     (exists td, texture dst = Some td)) /\
    (texture src = None \/ texture dst = None ->
     fst r = Returned tt /\
     existsb is_resolve new = false /\
     exists regions,
       List.filter is_copy new =
       [CmdBlitImage cmdbuffer
          (att_image src) VK_IMAGE_LAYOUT_TRANSFER_SRC_OPTIMAL
          (att_image dst) VK_IMAGE_LAYOUT_TRANSFER_DST_OPTIMAL regions flt]).
Proof.
  cbv zeta.
  blit_cases src dst aspect w; try no_texture;
    (eexists; split; [reflexivity|]); cbn [existsb is_resolve orb];
    unpack; settle.
Qed.

(** [lazyInit] only ever creates shader modules, and leaves the context
    alone. *)
Lemma lazyInit_run (w : World) :
  let r := lazyInit w in
  mContext (this (snd r)) = mContext (this w) /\
  exists init,
    calls (snd r) = calls w ++ init /\ forallb is_create init = true.
Proof.
  cbv zeta. run_exec.
  destruct (mVertex (this w) =? VK_NULL_HANDLE); tidy.
  2: { split; [reflexivity|]. exists []. now rewrite app_nil_r. }
  destruct (device (mContext (this w)) =? VK_NULL_HANDLE); tidy.
  1: { split; [reflexivity|]. exists []. now rewrite app_nil_r. }
  destruct (fst (driverCreateShaderModule _ _ _) =? VK_SUCCESS); tidy.
  2: { split; [reflexivity|]. eexists. split; reflexivity. }
  destruct (fst (driverCreateShaderModule _ _ _) =? VK_SUCCESS); tidy;
    (split; [reflexivity|]); eexists; split; reflexivity.
Qed.

Lemma blitFast_records
    aspect flt srcTarget src dst srcRect dstRect cmdbuffer w :
  let r := blitFast aspect flt srcTarget src dst srcRect dstRect cmdbuffer w in
  exists new,
    calls (snd r) = calls w ++ new /\
    ((fst r = Returned tt /\ records_copy cmdbuffer new)
     \/
     ((exists why, fst r = Fatal why) /\
      aspect = VK_IMAGE_ASPECT_DEPTH_BIT /\
      multisampled src /\ singlesampled dst /\
      records_entry_only cmdbuffer new)).
Proof.
  intros r.
  destruct (blitFast_run aspect flt srcTarget src dst srcRect dstRect
              cmdbuffer w) as [_ [t1 [t2 H]]].
  fold r in H. cbv zeta in H.
  destruct H as [[Hs [Hd [Ha [Hf Hc]]]]
                | [copy [exits [Hf [Hc [Hex H]]]]]].
  - eexists. split; [exact Hc|]. right.
    conj; [eexists; exact Hf | do 2 eexists; reflexivity].
  - eexists. split; [exact Hc|]. left. split; [exact Hf|].
    exists t1, t2, copy, exits. conj.
    unfold is_copy. destruct H as [[_ [_ [_ ->]]] | [_ ->]];
      [reflexivity | apply orb_true_r].
Qed.

(** C7, amended.  A copy call that returns has recorded either nothing
    (the format check, when compiled in, turned it away) or both entry
    barriers followed by the copy command and the exit barriers.  The two
    entry barriers are recorded without a copy command in one case only:
    the depth aspect with a source sample count greater than 1 and a
    destination sample count of 1, where the call stops with the fatal
    invariant violation after the two barriers.  A color copy never ends
    that way, and a failure of the shader initialisation stops the call
    before any barrier. *)
Theorem copy_recording_shapes :
  (forall aspect flt srcTarget src dst srcRect dstRect cmdbuffer w,
     let r := blitFast aspect flt srcTarget src dst srcRect dstRect
                cmdbuffer w in
     exists new,
       calls (snd r) = calls w ++ new /\
       ((fst r = Returned tt /\ records_copy cmdbuffer new)
        \/
        ((exists why, fst r = Fatal why) /\
         aspect = VK_IMAGE_ASPECT_DEPTH_BIT /\
         multisampled src /\ singlesampled dst /\
         records_entry_only cmdbuffer new))) /\
  (forall check cmdBuffer args w,
     let r := blitColorWith check cmdBuffer args w in
     exists init new,
       calls (snd r) = calls w ++ init ++ new /\
       forallb is_create init = true /\
       (new = [] \/ (fst r = Returned tt /\ records_copy cmdBuffer new))) /\
  (forall check cmdBuffer args w,
     let r := blitDepthWith check cmdBuffer args w in
     exists init new,
       calls (snd r) = calls w ++ init ++ new /\
       forallb is_create init = true /\
       (new = [] \/ (fst r = Returned tt /\ records_copy cmdBuffer new)
        \/
        ((exists why, fst r = Fatal why) /\
         multisampled (getDepth (srcTarget args)) /\
         singlesampled (getDepth (dstTarget args)) /\
         records_entry_only cmdBuffer new))).
Proof.
  split; [| split].
  - intros. apply blitFast_records.
  - intros check cmdBuffer args w.
    destruct (lazyInit_run w) as [_ [init [Hi Hcr]]].
    unfold blitColorWith, bind, getThis.
    destruct (lazyInit w) as [[[]|why] w1]; cbn [fst snd] in *.
    2: { exists init, []. rewrite app_nil_r. conj. now left. }
    destruct (formatsBlittable check _ _ _ _ _).
    2: { exists init, []. rewrite app_nil_r. conj. now left. }
    match goal with
    | |- context [blitFast ?a ?f ?st ?s ?d ?sr ?dr ?cb w1] =>
        destruct (blitFast_records a f st s d sr dr cb w1) as [new [Hc H]]
    end.
    cbv zeta in Hc, H. exists init, new. rewrite Hc, Hi, app_assoc. conj.
    destruct H as [H | [_ [Ha _]]]; [now right | discriminate Ha].
  - intros check cmdBuffer args w.
    destruct (lazyInit_run w) as [_ [init [Hi Hcr]]].
    unfold blitDepthWith, bind, getThis.
    destruct (lazyInit w) as [[[]|why] w1]; cbn [fst snd] in *.
    2: { exists init, []. rewrite app_nil_r. conj. now left. }
    destruct (formatsBlittable check _ _ _ _ _).
    2: { exists init, []. rewrite app_nil_r. conj. now left. }
    match goal with
    | |- context [blitFast ?a ?f ?st ?s ?d ?sr ?dr ?cb w1] =>
        destruct (blitFast_records a f st s d sr dr cb w1) as [new [Hc H]]
    end.
    cbv zeta in Hc, H. exists init, new. rewrite Hc, Hi, app_assoc. conj.
    destruct H as [H | [Hf [_ H]]]; [right; now left | right; right; now split].
Qed.

(** C8. [lazyInit] is idempotent.  With a driver that never reports
    success together with a null handle, a call that returns leaves the
    blitter in a state in which a second call returns at once and does
    nothing.  Started on a blitter without a vertex module, with a device
    present and both creations succeeding, two calls in sequence make
    exactly one pair of shader-module creations: the second call sees the
    non-null first handle and creates nothing. *)
Theorem lazyInit_idempotent (w : World) :
  (forall history dev info,
     fst (driverCreateShaderModule history dev info) = VK_SUCCESS ->
     snd (driverCreateShaderModule history dev info) <> VK_NULL_HANDLE) ->
  let r1 := lazyInit w in
  let r2 := lazyInit (snd r1) in
  let dev := device (mContext (this w)) in
  let vsInfo :=
    {| sType := VK_STRUCTURE_TYPE_SHADER_MODULE_CREATE_INFO;
       pNext := 0; flags := 0;
       codeSize := VKSHADERS_BLITCOLORVS_SIZE;
       pCode := VKSHADERS_BLITCOLORVS_DATA |} in
  let fsInfo :=
    {| sType := VK_STRUCTURE_TYPE_SHADER_MODULE_CREATE_INFO;
       pNext := 0; flags := 0;
       codeSize := VKSHADERS_BLITCOLORFS_SIZE;
       pCode := VKSHADERS_BLITCOLORFS_DATA |} in
  (fst r1 = Returned tt -> r2 = (Returned tt, snd r1)) /\
  (mVertex (this w) = VK_NULL_HANDLE ->
   dev <> VK_NULL_HANDLE ->
   fst (driverCreateShaderModule (calls w) dev vsInfo) = VK_SUCCESS ->
   fst (driverCreateShaderModule
          (calls w ++ [CreateShaderModule dev vsInfo]) dev fsInfo)
   = VK_SUCCESS ->
   fst r1 = Returned tt /\ fst r2 = Returned tt /\
   mVertex (this (snd r1)) <> VK_NULL_HANDLE /\
   calls (snd r1) =
   calls w ++ [CreateShaderModule dev vsInfo; CreateShaderModule dev fsInfo] /\
   calls (snd r2) = calls (snd r1)).
Proof.
  intros Hdrv. cbv zeta. split.
  - unfold lazyInit at 2. run_exec.
    destruct (mVertex (this w) =? VK_NULL_HANDLE) eqn:Ev; tidy.
    + destruct (device (mContext (this w)) =? VK_NULL_HANDLE); tidy;
        [discriminate|].
      destruct (fst (driverCreateShaderModule _ _ _) =? VK_SUCCESS) eqn:E1;
        tidy; [| discriminate].
      apply Z.eqb_eq, Hdrv, Z.eqb_neq in E1.
      destruct (fst (driverCreateShaderModule _ _ _) =? VK_SUCCESS) eqn:E2;
        tidy; [| discriminate].
      intros _. unfold lazyInit. run_exec. now rewrite E1.
    + intros _. unfold lazyInit. run_exec. now rewrite Ev.
  - intros Hv Hd H1 H2.
    pose proof (Hdrv _ _ _ H1) as Hnn.
    apply Z.eqb_eq in Hv, H1, H2. apply Z.eqb_neq in Hd, Hnn.
    run_exec. rewrite Hv, Hd. tidy. rewrite H1. tidy. rewrite H2. tidy.
    rewrite Hnn. tidy. apply Z.eqb_neq in Hnn. conj.
Qed.

(** C10. [shutdown] never writes the shader-handle fields.  With a device
    present it returns with the object unchanged, having passed both
    handles to destruction; a later [lazyInit] on a blitter whose vertex
    handle was non-null still sees it non-null and creates nothing; and a
    second [shutdown] passes the same two handle values to destruction
    again. *)
Theorem shutdown_keeps_handles (w : World) :
  device (mContext (this w)) <> VK_NULL_HANDLE ->
  let r := shutdown w in
  let dev := device (mContext (this w)) in
  fst r = Returned tt /\
  this (snd r) = this w /\
  calls (snd r) =
  calls w ++ [DestroyShaderModule dev (mVertex (this w));
              DestroyShaderModule dev (mFragment (this w))] /\
  (mVertex (this w) <> VK_NULL_HANDLE ->
   lazyInit (snd r) = (Returned tt, snd r)) /\
  calls (snd (shutdown (snd r))) =
  calls w ++ [DestroyShaderModule dev (mVertex (this w));
              DestroyShaderModule dev (mFragment (this w));
              DestroyShaderModule dev (mVertex (this w));
              DestroyShaderModule dev (mFragment (this w))].
Proof.
  intros Hd. cbv zeta. apply Z.eqb_neq in Hd.
  run_exec. rewrite Hd. tidy. rewrite Hd. tidy. conj.
  intros Hv. apply Z.eqb_neq in Hv. now rewrite Hv.
Qed.

(** ** Further properties of the methods *)

Lemma transitionHelper_twice (t : VulkanLayoutTransition) :
  transitionHelper (transitionHelper t) = transitionHelper t.
Proof.
  unfold transitionHelper.
  destruct ((newLayout t =? VK_IMAGE_LAYOUT_SHADER_READ_ONLY_OPTIMAL)
            || (newLayout t =? VK_IMAGE_LAYOUT_GENERAL)) eqn:E;
    cbn [newLayout image oldLayout subresources]; now rewrite E.
Qed.

Lemma transitionHelper_srcStage (t : VulkanLayoutTransition) :
  srcStage (transitionHelper t) = VK_PIPELINE_STAGE_TRANSFER_BIT.
Proof.
  unfold transitionHelper.
  now destruct ((newLayout t =? VK_IMAGE_LAYOUT_SHADER_READ_ONLY_OPTIMAL)
                || (newLayout t =? VK_IMAGE_LAYOUT_GENERAL)).
Qed.

Ltac frame_rw :=
  repeat match goal with
    | |- context [image (transitionHelper ?x)] =>
        rewrite (proj1 (transitionHelper_frame x))
    | |- context [oldLayout (transitionHelper ?x)] =>
        rewrite (proj1 (proj2 (transitionHelper_frame x)))
    | |- context [newLayout (transitionHelper ?x)] =>
        rewrite (proj1 (proj2 (proj2 (transitionHelper_frame x))))
    | |- context [subresources (transitionHelper ?x)] =>
        rewrite (proj2 (proj2 (proj2 (transitionHelper_frame x))))
    | |- context [srcStage (transitionHelper ?x)] =>
        rewrite (transitionHelper_srcStage x)
    | |- context [transitionHelper (transitionHelper ?x)] =>
        rewrite (transitionHelper_twice x)
    end.

(** X1. [transitionHelper] overwrites the four synchronisation fields and
    reads only the target layout: applying it twice is the same as applying
    it once, and two transitions that agree on image, layouts and
    subresource range come out equal whatever their synchronisation fields
    held before. *)
Theorem transitionHelper_overwrites (t : VulkanLayoutTransition) :
  transitionHelper (transitionHelper t) = transitionHelper t /\
  (forall t' : VulkanLayoutTransition,
     image t' = image t -> oldLayout t' = oldLayout t ->
     newLayout t' = newLayout t -> subresources t' = subresources t ->
     transitionHelper t' = transitionHelper t).
Proof.
  split; [apply transitionHelper_twice|].
  intros t' Hi Ho Hn Hs. unfold transitionHelper.
  now rewrite Hi, Ho, Hn, Hs.
Qed.

(** X2. [blitFast] writes no field of the blitter, keeps the calls made
    before it, and sends every call it makes to the command buffer it was
    given; it never creates or destroys a shader module. *)
Theorem blitFast_frame
    aspect flt srcTarget src dst srcRect dstRect cmdbuffer w :
  let r := blitFast aspect flt srcTarget src dst srcRect dstRect cmdbuffer w in
  this (snd r) = this w /\
  exists new,
    calls (snd r) = calls w ++ new /\
    Forall (fun c => call_cmdbuffer c = Some cmdbuffer) new.
Proof.
  cbv zeta.
  blit_cases src dst aspect w; (split; [reflexivity|]);
    (eexists; split; [reflexivity|]); repeat constructor.
Qed.

(** X3. Every barrier [blitFast] records, before or after the copy command,
    starts from layout undefined and covers exactly one mip level and one
    array layer of the requested aspect: the level and layer of the source
    attachment on the source image, or those of the destination attachment
    on the destination image. *)
Theorem blitFast_barrier_ranges
    aspect flt srcTarget src dst srcRect dstRect cmdbuffer w :
  let r := blitFast aspect flt srcTarget src dst srcRect dstRect cmdbuffer w in
  exists new,
    calls (snd r) = calls w ++ new /\
    Forall
      (fun c =>
         match barrier_of c with
         | Some t =>
             oldLayout t = VK_IMAGE_LAYOUT_UNDEFINED /\
             aspectMask (subresources t) = aspect /\
             levelCount (subresources t) = 1 /\
             layerCount (subresources t) = 1 /\
             ((image t = att_image src /\
               baseMipLevel (subresources t) = level src /\
               baseArrayLayer (subresources t) = layer src)
              \/
              (image t = att_image dst /\
               baseMipLevel (subresources t) = level dst /\
               baseArrayLayer (subresources t) = layer dst))
         | None => True
         end)
      new.
Proof.
  cbv zeta.
  blit_cases src dst aspect w; (eexists; split; [reflexivity|]);
    repeat (constructor;
            [cbn [barrier_of]; try exact I; frame_rw; cbn; conj;
             first [left; conj; fail | right; conj; fail] |]);
    constructor.
Qed.

(** X4. In every call of [blitFast] that returns, the copy command names
    the image and the layout of the barrier two places before it as its
    source, and the image and the layout of the barrier just before it as
    its destination: transfer-source-optimal on the source image and
    transfer-destination-optimal on the destination image. *)
Theorem blitFast_copy_follows_entry_barriers
    aspect flt srcTarget src dst srcRect dstRect cmdbuffer w :
  let r := blitFast aspect flt srcTarget src dst srcRect dstRect cmdbuffer w in
  fst r = Returned tt ->
  exists t1 t2 copy rest,
    calls (snd r) =
    calls w ++ TransitionImageLayout cmdbuffer t1
            :: TransitionImageLayout cmdbuffer t2 :: copy :: rest /\
    copy_source copy = Some (image t1, newLayout t1) /\
    copy_destination copy = Some (image t2, newLayout t2) /\
    (image t1, newLayout t1)
    = (att_image src, VK_IMAGE_LAYOUT_TRANSFER_SRC_OPTIMAL) /\
    (image t2, newLayout t2)
    = (att_image dst, VK_IMAGE_LAYOUT_TRANSFER_DST_OPTIMAL).
Proof.
  cbv zeta.
  blit_cases src dst aspect w; intros Hret; try discriminate Hret;
    do 4 eexists; (split; [reflexivity|]); conj.
Qed.

(** X5. In every call of [blitFast] that returns, each barrier after the
    copy command carries the synchronisation fields [transitionHelper]
    assigns to its target layout (so it waits on the transfer stage), starts
    from layout undefined, and covers the image and the subresource range of
    one of the two barriers recorded before the copy command. *)
Theorem blitFast_exit_barriers_follow_policy
    aspect flt srcTarget src dst srcRect dstRect cmdbuffer w :
  let r := blitFast aspect flt srcTarget src dst srcRect dstRect cmdbuffer w in
  fst r = Returned tt ->
  exists t1 t2 copy exits,
    calls (snd r) =
    calls w ++ TransitionImageLayout cmdbuffer t1
            :: TransitionImageLayout cmdbuffer t2 :: copy :: exits /\
    Forall
      (fun c =>
         exists t,
           c = TransitionImageLayout cmdbuffer t /\
           transitionHelper t = t /\
           oldLayout t = VK_IMAGE_LAYOUT_UNDEFINED /\
           srcStage t = VK_PIPELINE_STAGE_TRANSFER_BIT /\
           ((image t = image t1 /\ subresources t = subresources t1) \/
            (image t = image t2 /\ subresources t = subresources t2)))
      exits.
Proof.
  cbv zeta.
  blit_cases src dst aspect w; intros Hret; try discriminate Hret;
    do 4 eexists; (split; [reflexivity|]);
    repeat (constructor;
            [eexists; split; [reflexivity|]; frame_rw; cbn; conj;
             first [left; conj; fail | right; conj; fail] |]);
    constructor.
Qed.

(** X6. Whether [blitFast] returns or stops, and the barriers it records,
    depend on the aspect, the two attachments, the command buffer and the
    context only: the filter, the two rectangles and the source target (its
    extent) have no influence on them. *)
Theorem blitFast_barriers_ignore_region
    aspect src dst cmdbuffer w
    flt srcTarget srcRect dstRect flt' srcTarget' srcRect' dstRect' :
  let r := blitFast aspect flt srcTarget src dst srcRect dstRect cmdbuffer w in
  let r' := blitFast aspect flt' srcTarget' src dst srcRect' dstRect'
              cmdbuffer w in
  fst r = fst r' /\
  List.filter is_transition (calls (snd r))
  = List.filter is_transition (calls (snd r')).
Proof.
  cbv zeta.
  blit_cases src dst aspect w; (split; [reflexivity|]);
    rewrite !filter_app; reflexivity.
Qed.

(** X7. What the copy command leaves unread.  When the sample counts call
    for a resolve, the whole run is the same for any filter and any far
    corner of either rectangle: the resolve region takes the near corners
    and the extent of the source target.  In every other case the whole run
    is the same for any source target: the blit region takes both corners of
    both rectangles and never the extent. *)
Theorem blitFast_unread_arguments
    aspect flt srcTarget src dst srcRect dstRect cmdbuffer w :
  (multisampled src -> singlesampled dst ->
   forall flt' srcFar dstFar,
     blitFast aspect flt' srcTarget src dst
       (fst srcRect, srcFar) (fst dstRect, dstFar) cmdbuffer w
     = blitFast aspect flt srcTarget src dst srcRect dstRect cmdbuffer w) /\
  (~ (multisampled src /\ singlesampled dst) ->
   forall srcTarget',
     blitFast aspect flt srcTarget' src dst srcRect dstRect cmdbuffer w
     = blitFast aspect flt srcTarget src dst srcRect dstRect cmdbuffer w).
Proof.
  split.
  - intros Hs Hd flt' srcFar dstFar.
    pose proof (proj2 (resolve_test_iff src dst) (conj Hs Hd)) as E.
    unfold blitFast. rewrite E. reflexivity.
  - intros Hn srcTarget'.
    pose proof (resolve_test_false src dst Hn) as E.
    unfold blitFast. rewrite E. reflexivity.
Qed.

(** X8. [shutdown] never fails and never writes a field; without a device
    it makes no call at all and leaves everything as it was. *)
Theorem shutdown_safe (w : World) :
  fst (shutdown w) = Returned tt /\
  this (snd (shutdown w)) = this w /\
  (device (mContext (this w)) = VK_NULL_HANDLE ->
   shutdown w = (Returned tt, w)).
Proof.
  run_exec.
  destruct (device (mContext (this w)) =? VK_NULL_HANDLE) eqn:E; tidy; conj.
  apply Z.eqb_neq in E. intros H. contradiction.
Qed.

(** X9. [lazyInit] on a blitter without a vertex module and without a
    device stops with a fatal invariant violation before it asks the driver
    for anything: no call is made and no field is written. *)
Theorem lazyInit_without_device (w : World) :
  mVertex (this w) = VK_NULL_HANDLE ->
  device (mContext (this w)) = VK_NULL_HANDLE ->
  exists why, lazyInit w = (Fatal why, w).
Proof.
  intros Hv Hd. apply Z.eqb_eq in Hv, Hd.
  run_exec. rewrite Hv, Hd. tidy. eexists. reflexivity.
Qed.

(** X10. Failed creations stop [lazyInit].  When the driver fails to create
    the vertex module, [lazyInit] stops right after that one creation call
    and never asks for the fragment module, whose field keeps its value.
    When the vertex module is created and the fragment module is not, it
    stops after the second creation call, with the vertex handle stored. *)
Theorem lazyInit_creation_failure (w : World) :
  let dev := device (mContext (this w)) in
  let vsInfo :=
    {| sType := VK_STRUCTURE_TYPE_SHADER_MODULE_CREATE_INFO;
       pNext := 0; flags := 0;
       codeSize := VKSHADERS_BLITCOLORVS_SIZE;
       pCode := VKSHADERS_BLITCOLORVS_DATA |} in
  let fsInfo :=
    {| sType := VK_STRUCTURE_TYPE_SHADER_MODULE_CREATE_INFO;
       pNext := 0; flags := 0;
       codeSize := VKSHADERS_BLITCOLORFS_SIZE;
       pCode := VKSHADERS_BLITCOLORFS_DATA |} in
  let vs := driverCreateShaderModule (calls w) dev vsInfo in
  let fs := driverCreateShaderModule
              (calls w ++ [CreateShaderModule dev vsInfo]) dev fsInfo in
  mVertex (this w) = VK_NULL_HANDLE ->
  dev <> VK_NULL_HANDLE ->
  (fst vs <> VK_SUCCESS ->
   fst (lazyInit w) = Fatal "Unable to create vertex shader for blit." /\
   calls (snd (lazyInit w)) = calls w ++ [CreateShaderModule dev vsInfo] /\
   mFragment (this (snd (lazyInit w))) = mFragment (this w)) /\
  (fst vs = VK_SUCCESS -> fst fs <> VK_SUCCESS ->
   fst (lazyInit w) = Fatal "Unable to create fragment shader for blit." /\
   calls (snd (lazyInit w)) =
   calls w ++ [CreateShaderModule dev vsInfo; CreateShaderModule dev fsInfo] /\
   mVertex (this (snd (lazyInit w))) = snd vs).
Proof.
  cbv zeta. intros Hv Hd. apply Z.eqb_eq in Hv. apply Z.eqb_neq in Hd.
  split.
  - intros H1. apply Z.eqb_neq in H1.
    run_exec. rewrite Hv, Hd. tidy. rewrite H1. tidy. conj.
  - intros H1 H2. apply Z.eqb_eq in H1. apply Z.eqb_neq in H2.
    run_exec. rewrite Hv, Hd. tidy. rewrite H1. tidy. rewrite H2. tidy. conj.
Qed.

(** X11. Creation and destruction pair up.  On a blitter without a vertex
    module, with a device and a driver that creates both modules, [lazyInit]
    followed by [shutdown] returns, and the calls made are the creation of
    the vertex module, the creation of the fragment module, then the
    destruction of exactly the two handles the driver returned, vertex
    first. *)
Theorem lazyInit_then_shutdown (w : World) :
  let dev := device (mContext (this w)) in
  let vsInfo :=
    {| sType := VK_STRUCTURE_TYPE_SHADER_MODULE_CREATE_INFO;
       pNext := 0; flags := 0;
       codeSize := VKSHADERS_BLITCOLORVS_SIZE;
       pCode := VKSHADERS_BLITCOLORVS_DATA |} in
  let fsInfo :=
    {| sType := VK_STRUCTURE_TYPE_SHADER_MODULE_CREATE_INFO;
       pNext := 0; flags := 0;
       codeSize := VKSHADERS_BLITCOLORFS_SIZE;
       pCode := VKSHADERS_BLITCOLORFS_DATA |} in
  let vs := driverCreateShaderModule (calls w) dev vsInfo in
  let fs := driverCreateShaderModule
              (calls w ++ [CreateShaderModule dev vsInfo]) dev fsInfo in
  mVertex (this w) = VK_NULL_HANDLE ->
  dev <> VK_NULL_HANDLE ->
  fst vs = VK_SUCCESS -> fst fs = VK_SUCCESS ->
  let r := (lazyInit ;; shutdown) w in
  fst r = Returned tt /\
  mVertex (this (snd r)) = snd vs /\
  mFragment (this (snd r)) = snd fs /\
  calls (snd r) =
  calls w ++ [CreateShaderModule dev vsInfo; CreateShaderModule dev fsInfo;
              DestroyShaderModule dev (snd vs);
              DestroyShaderModule dev (snd fs)].
Proof.
  cbv zeta. intros Hv Hd H1 H2.
  apply Z.eqb_eq in Hv, H1, H2. apply Z.eqb_neq in Hd.
  run_exec. rewrite Hv, Hd. tidy. rewrite H1. tidy. rewrite H2. tidy.
  rewrite Hd. tidy. conj.
Qed.

Lemma lazyInit_ready (w : World) :
  mVertex (this w) <> VK_NULL_HANDLE -> lazyInit w = (Returned tt, w).
Proof.
  intros Hv. apply Z.eqb_neq in Hv. run_exec. now rewrite Hv.
Qed.

Lemma blitFast_this aspect flt srcTarget src dst srcRect dstRect cmdbuffer w :
  this (snd (blitFast aspect flt srcTarget src dst srcRect dstRect
               cmdbuffer w)) = this w.
Proof. apply blitFast_run. Qed.

Lemma blitFast_fatal_iff
    aspect flt srcTarget src dst srcRect dstRect cmdbuffer w :
  (exists why,
     fst (blitFast aspect flt srcTarget src dst srcRect dstRect cmdbuffer w)
     = Fatal why)
  <-> aspect = VK_IMAGE_ASPECT_DEPTH_BIT /\
      multisampled src /\ singlesampled dst.
Proof.
  destruct (blitFast_run aspect flt srcTarget src dst srcRect dstRect
              cmdbuffer w) as [_ [t1 [t2 H]]].
  cbv zeta in H.
  destruct H as [[Hs [Hd [Ha [Hf _]]]] | [copy [exits [Hf [_ [_ H]]]]]].
  - split; [intros _; conj | intros _; eexists; exact Hf].
  - split.
    + intros [why Hw]. rewrite Hf in Hw. discriminate Hw.
    + intros [Ha [Hs Hd]]. exfalso.
      destruct H as [[_ [_ [Hne _]]] | [Hn _]];
        [exact (Hne Ha) | exact (Hn (conj Hs Hd))].
Qed.

(** X12. A color copy on a blitter whose shader modules exist is exactly
    [blitFast] on the color aspect, from the source's color attachment at
    [targetIndex] to the destination's color attachment 0; it makes no
    shader-module call and it always returns. *)
Theorem blitColor_ready (cmdBuffer : VkCommandBuffer) (args : BlitArgs)
    (w : World) :
  mVertex (this w) <> VK_NULL_HANDLE ->
  blitColor cmdBuffer args w
  = blitFast VK_IMAGE_ASPECT_COLOR_BIT (filter args) (srcTarget args)
      (getColor (srcTarget args) (targetIndex args))
      (getColor (dstTarget args) 0)
      (srcRectPair args) (dstRectPair args) cmdBuffer w /\
  fst (blitColor cmdBuffer args w) = Returned tt.
Proof.
  intros Hv.
  assert (E : blitColor cmdBuffer args w
              = blitFast VK_IMAGE_ASPECT_COLOR_BIT (filter args)
                  (srcTarget args)
                  (getColor (srcTarget args) (targetIndex args))
                  (getColor (dstTarget args) 0)
                  (srcRectPair args) (dstRectPair args) cmdBuffer w).
  { unfold blitColor, blitColorWith, bind at 1.
    rewrite (lazyInit_ready w Hv). reflexivity. }
  split; [exact E|]. rewrite E.
  match goal with |- fst ?r = _ => destruct (fst r) as [[]|why] eqn:Ef end;
    [reflexivity|].
  exfalso.
  assert (H : VK_IMAGE_ASPECT_COLOR_BIT = VK_IMAGE_ASPECT_DEPTH_BIT)
    by (eapply blitFast_fatal_iff; eexists; exact Ef).
  discriminate H.
Qed.

(** X13. A depth copy on a blitter whose shader modules exist is exactly
    [blitFast] on the depth aspect between the two depth attachments, and it
    stops with a fatal invariant violation exactly when the source depth
    attachment has a sample count greater than 1 and the destination depth
    attachment has a sample count of 1. *)
Theorem blitDepth_ready (cmdBuffer : VkCommandBuffer) (args : BlitArgs)
    (w : World) :
  mVertex (this w) <> VK_NULL_HANDLE ->
  blitDepth cmdBuffer args w
  = blitFast VK_IMAGE_ASPECT_DEPTH_BIT (filter args) (srcTarget args)
      (getDepth (srcTarget args)) (getDepth (dstTarget args))
      (srcRectPair args) (dstRectPair args) cmdBuffer w /\
  ((exists why, fst (blitDepth cmdBuffer args w) = Fatal why)
   <-> multisampled (getDepth (srcTarget args)) /\
       singlesampled (getDepth (dstTarget args))).
Proof.
  intros Hv.
  assert (E : blitDepth cmdBuffer args w
              = blitFast VK_IMAGE_ASPECT_DEPTH_BIT (filter args)
                  (srcTarget args)
                  (getDepth (srcTarget args)) (getDepth (dstTarget args))
                  (srcRectPair args) (dstRectPair args) cmdBuffer w).
  { unfold blitDepth, blitDepthWith, bind at 1.
    rewrite (lazyInit_ready w Hv). reflexivity. }
  split; [exact E|]. rewrite E. rewrite blitFast_fatal_iff.
  split; [intros [_ H]; exact H | intros H; split; [reflexivity | exact H]].
Qed.

(** X14. The format check, when compiled in.  On a blitter whose shader
    modules exist, a copy whose source format lacks the blit-source feature
    or whose destination format lacks the blit-destination feature returns
    without a call and without a change; when both features are there the
    copy runs as it does with the check compiled out.  This holds for the
    color and for the depth entry point. *)
Theorem format_check_gate (cmdBuffer : VkCommandBuffer) (args : BlitArgs)
    (w : World) :
  let gpu := physicalDevice (mContext (this w)) in
  let srcFeature (a : VulkanAttachment) :=
    Z.land (optimalTilingFeatures gpu (att_format a))
      VK_FORMAT_FEATURE_BLIT_SRC_BIT in
  let dstFeature (a : VulkanAttachment) :=
    Z.land (optimalTilingFeatures gpu (att_format a))
      VK_FORMAT_FEATURE_BLIT_DST_BIT in
  let srcColor := getColor (srcTarget args) (targetIndex args) in
  let dstColor := getColor (dstTarget args) 0 in
  let srcDepth := getDepth (srcTarget args) in
  let dstDepth := getDepth (dstTarget args) in
  mVertex (this w) <> VK_NULL_HANDLE ->
  (srcFeature srcColor = 0 \/ dstFeature dstColor = 0 ->
   blitColorWith true cmdBuffer args w = (Returned tt, w)) /\
  (srcFeature srcColor <> 0 -> dstFeature dstColor <> 0 ->
   blitColorWith true cmdBuffer args w
   = blitColorWith false cmdBuffer args w) /\
  (srcFeature srcDepth = 0 \/ dstFeature dstDepth = 0 ->
   blitDepthWith true cmdBuffer args w = (Returned tt, w)) /\
  (srcFeature srcDepth <> 0 -> dstFeature dstDepth <> 0 ->
   blitDepthWith true cmdBuffer args w
   = blitDepthWith false cmdBuffer args w).
Proof.
  cbv zeta. intros Hv.
  unfold blitColorWith, blitDepthWith, bind, getThis.
  rewrite (lazyInit_ready w Hv).
  unfold formatsBlittable, ASSERT_POSTCONDITION_NON_FATAL.
  repeat split.
  - intros [H | H]; apply Z.eqb_eq in H; rewrite H; [reflexivity|].
    now destruct (Z.land _ VK_FORMAT_FEATURE_BLIT_SRC_BIT =? 0).
  - intros H1 H2. apply Z.eqb_neq in H1, H2. now rewrite H1, H2.
  - intros [H | H]; apply Z.eqb_eq in H; rewrite H; [reflexivity|].
    now destruct (Z.land _ VK_FORMAT_FEATURE_BLIT_SRC_BIT =? 0).
  - intros H1 H2. apply Z.eqb_neq in H1, H2. now rewrite H1, H2.
Qed.

Lemma lazyInit_success (w : World) :
  let dev := device (mContext (this w)) in
  let vsInfo :=
    {| sType := VK_STRUCTURE_TYPE_SHADER_MODULE_CREATE_INFO;
       pNext := 0; flags := 0;
       codeSize := VKSHADERS_BLITCOLORVS_SIZE;
       pCode := VKSHADERS_BLITCOLORVS_DATA |} in
  let fsInfo :=
    {| sType := VK_STRUCTURE_TYPE_SHADER_MODULE_CREATE_INFO;
       pNext := 0; flags := 0;
       codeSize := VKSHADERS_BLITCOLORFS_SIZE;
       pCode := VKSHADERS_BLITCOLORFS_DATA |} in
  let vs := driverCreateShaderModule (calls w) dev vsInfo in
  let fs := driverCreateShaderModule
              (calls w ++ [CreateShaderModule dev vsInfo]) dev fsInfo in
  mVertex (this w) = VK_NULL_HANDLE ->
  dev <> VK_NULL_HANDLE ->
  fst vs = VK_SUCCESS -> fst fs = VK_SUCCESS ->
  lazyInit w
  = (Returned tt,
     {| this := {| mContext := mContext (this w);
                   mVertex := snd vs; mFragment := snd fs |};
        calls := calls w ++ [CreateShaderModule dev vsInfo;
                             CreateShaderModule dev fsInfo] |}).
Proof.
  cbv zeta. intros Hv Hd H1 H2.
  apply Z.eqb_eq in Hv, H1, H2. apply Z.eqb_neq in Hd.
  run_exec. rewrite Hv, Hd. tidy. rewrite H1. tidy. rewrite H2. tidy.
  reflexivity.
Qed.

(** X15. What the entry points read of a request.  [blitColor] reads the
    source target's color attachment at [targetIndex] and its extent, the
    destination target's color attachment 0, the two rectangles and the
    filter; [blitDepth] reads the two depth attachments, the source extent,
    the rectangles and the filter.  Two requests that agree on these run
    identically: the destination extent, the other color attachments and,
    for a depth copy, [targetIndex] are never looked at. *)
Theorem entry_points_read (cmdBuffer : VkCommandBuffer)
    (args args' : BlitArgs) (w : World) :
  getExtent (srcTarget args') = getExtent (srcTarget args) ->
  srcRectPair args' = srcRectPair args ->
  dstRectPair args' = dstRectPair args ->
  filter args' = filter args ->
  (getColor (srcTarget args') (targetIndex args')
   = getColor (srcTarget args) (targetIndex args) ->
   getColor (dstTarget args') 0 = getColor (dstTarget args) 0 ->
   blitColor cmdBuffer args' w = blitColor cmdBuffer args w) /\
  (getDepth (srcTarget args') = getDepth (srcTarget args) ->
   getDepth (dstTarget args') = getDepth (dstTarget args) ->
   blitDepth cmdBuffer args' w = blitDepth cmdBuffer args w).
Proof.
  intros He Hsr Hdr Hf.
  split; intros Hs Hd;
    unfold blitColor, blitDepth, blitColorWith, blitDepthWith, blitFast;
    rewrite He, Hsr, Hdr, Hf, Hs, Hd; reflexivity.
Qed.

(** X16. The shader modules are created by the first copy only.  On a
    blitter without a vertex module, with a device and a driver that creates
    both modules and returns a non-null vertex handle, two color copies in
    sequence both return, and the calls they make are the two creations
    followed by the barriers and copy command of the first copy and then
    those of the second: the second copy makes no shader-module call. *)
Theorem blitColor_twice (cb1 cb2 : VkCommandBuffer) (args1 args2 : BlitArgs)
    (w : World) :
  let dev := device (mContext (this w)) in
  let vsInfo :=
    {| sType := VK_STRUCTURE_TYPE_SHADER_MODULE_CREATE_INFO;
       pNext := 0; flags := 0;
       codeSize := VKSHADERS_BLITCOLORVS_SIZE;
       pCode := VKSHADERS_BLITCOLORVS_DATA |} in
  let fsInfo :=
    {| sType := VK_STRUCTURE_TYPE_SHADER_MODULE_CREATE_INFO;
       pNext := 0; flags := 0;
       codeSize := VKSHADERS_BLITCOLORFS_SIZE;
       pCode := VKSHADERS_BLITCOLORFS_DATA |} in
  let vs := driverCreateShaderModule (calls w) dev vsInfo in
  let fs := driverCreateShaderModule
              (calls w ++ [CreateShaderModule dev vsInfo]) dev fsInfo in
  mVertex (this w) = VK_NULL_HANDLE ->
  dev <> VK_NULL_HANDLE ->
  fst vs = VK_SUCCESS -> snd vs <> VK_NULL_HANDLE ->
  fst fs = VK_SUCCESS ->
  let r := (blitColor cb1 args1 ;; blitColor cb2 args2) w in
  fst r = Returned tt /\
  exists new1 new2,
    calls (snd r) =
    calls w ++ [CreateShaderModule dev vsInfo; CreateShaderModule dev fsInfo]
            ++ new1 ++ new2 /\
    records_copy cb1 new1 /\ records_copy cb2 new2.
Proof.
  cbv zeta. intros Hv Hd H1 Hnn H2.
  pose proof (lazyInit_success w Hv Hd H1 H2) as EL. cbv zeta in EL.
  assert (E1 : blitColor cb1 args1 w
               = blitFast VK_IMAGE_ASPECT_COLOR_BIT (filter args1)
                   (srcTarget args1)
                   (getColor (srcTarget args1) (targetIndex args1))
                   (getColor (dstTarget args1) 0)
                   (srcRectPair args1) (dstRectPair args1) cb1
                   (snd (lazyInit w))).
  { unfold blitColor, blitColorWith, bind at 1. rewrite EL. reflexivity. }
  unfold bind. rewrite E1, EL. cbn [snd].
  match goal with
  | |- context [blitFast ?a ?f ?st ?s ?d ?sr ?dr ?cb ?w1] =>
      pose proof (blitFast_this a f st s d sr dr cb w1) as Ht;
      pose proof (blitFast_fatal_iff a f st s d sr dr cb w1) as Hfat;
      destruct (blitFast_records a f st s d sr dr cb w1) as [new1 [Hc1 Hr1]];
      cbv zeta in Hc1, Hr1;
      destruct (blitFast a f st s d sr dr cb w1) as [[[]|why] w2]
  end; cbn [fst snd this calls mVertex] in *.
  2: { exfalso.
       assert (H : VK_IMAGE_ASPECT_COLOR_BIT = VK_IMAGE_ASPECT_DEPTH_BIT)
         by (apply Hfat; eexists; reflexivity).
       discriminate H. }
  destruct Hr1 as [[_ Hr1] | [[why Hw] _]]; [| discriminate Hw].
  assert (Hv2 : mVertex (this w2) <> VK_NULL_HANDLE) by (now rewrite Ht).
  destruct (blitFast_records VK_IMAGE_ASPECT_COLOR_BIT (filter args2)
              (srcTarget args2)
              (getColor (srcTarget args2) (targetIndex args2))
              (getColor (dstTarget args2) 0)
              (srcRectPair args2) (dstRectPair args2) cb2 w2)
    as [new2 [Hc2 Hr2]].
  cbv zeta in Hc2, Hr2.
  assert (E2 : blitColor cb2 args2 w2
               = blitFast VK_IMAGE_ASPECT_COLOR_BIT (filter args2)
                   (srcTarget args2)
                   (getColor (srcTarget args2) (targetIndex args2))
                   (getColor (dstTarget args2) 0)
                   (srcRectPair args2) (dstRectPair args2) cb2 w2).
  { unfold blitColor, blitColorWith, bind at 1.
    rewrite (lazyInit_ready w2 Hv2). reflexivity. }
  rewrite E2.
  destruct Hr2 as [[Hf2 Hr2] | [_ [Ha _]]]; [| discriminate Ha].
  split; [exact Hf2|].
  exists new1, new2. rewrite Hc2, Hc1, <- !app_assoc. conj.
Qed.

(** X17. The barriers cover what the copy touches.  In every call of
    [blitFast] that returns, the copy command has exactly one region, and
    the mip level and layers that region reads and writes are exactly the
    subresource ranges of the two barriers recorded before it, source first,
    destination second. *)
Theorem blitFast_barriers_cover_copy
    aspect flt srcTarget src dst srcRect dstRect cmdbuffer w :
  let r := blitFast aspect flt srcTarget src dst srcRect dstRect cmdbuffer w in
  fst r = Returned tt ->
  exists t1 t2 copy rest srcLayers dstLayers,
    calls (snd r) =
    calls w ++ TransitionImageLayout cmdbuffer t1
            :: TransitionImageLayout cmdbuffer t2 :: copy :: rest /\
    copy_regions copy = [(srcLayers, dstLayers)] /\
    range_of_layers srcLayers = subresources t1 /\
    range_of_layers dstLayers = subresources t2.
Proof.
  cbv zeta.
  blit_cases src dst aspect w; intros Hret; try discriminate Hret;
    do 6 eexists; (split; [reflexivity|]); conj.
Qed.
End Blitter.

(** ** The statements at the sample data *)

Lemma transitionHelper_policy_witness :
  srcAccessMask
    (transitionHelper
       {| image := 11; oldLayout := VK_IMAGE_LAYOUT_UNDEFINED;
          newLayout := VK_IMAGE_LAYOUT_GENERAL;
          subresources :=
            {| aspectMask := VK_IMAGE_ASPECT_COLOR_BIT; baseMipLevel := 0;
               levelCount := 1; baseArrayLayer := 0; layerCount := 1 |};
          srcStage := 0; srcAccessMask := 0;
          dstStage := 0; dstAccessMask := 0 |})
  = VK_ACCESS_TRANSFER_WRITE_BIT.
Proof.
  apply (proj1 (transitionHelper_policy _)). right. reflexivity.
Defined.

Lemma sample_msaa_multisampled : multisampled Sample.msaa.
Proof. exists 4. split; reflexivity. Defined.

Lemma sample_plain_singlesampled : singlesampled Sample.plain.
Proof. reflexivity. Defined.

Lemma blitFast_copy_choice_witness :
  exists new,
    calls (snd (blitFast Sample.getTextureLayout Sample.getSwapChainAttachment
                  VK_IMAGE_ASPECT_COLOR_BIT VK_FILTER_LINEAR
                  (Sample.target Sample.msaa Sample.msaa)
                  Sample.msaa Sample.plain Sample.rect Sample.rect
                  Sample.cmdbuffer (Sample.ready 0)))
    = [] ++ new /\
    existsb is_resolve new = true.
Proof.
  destruct (blitFast_copy_choice
              Sample.getTextureLayout Sample.getSwapChainAttachment
              VK_IMAGE_ASPECT_COLOR_BIT VK_FILTER_LINEAR
              (Sample.target Sample.msaa Sample.msaa)
              Sample.msaa Sample.plain Sample.rect Sample.rect
              Sample.cmdbuffer (Sample.ready 0)) as [new [Hc [Hiff _]]].
  exists new. split; [exact Hc|]. apply Hiff.
  split; [exact sample_msaa_multisampled|].
  split; [exact sample_plain_singlesampled | discriminate].
Defined.

Lemma blitFast_depth_resolve_fatal_witness :
  fst (blitFast Sample.getTextureLayout Sample.getSwapChainAttachment
         VK_IMAGE_ASPECT_DEPTH_BIT VK_FILTER_NEAREST
         (Sample.target Sample.msaa Sample.msaa)
         Sample.msaa Sample.plain Sample.rect Sample.rect
         Sample.cmdbuffer (Sample.ready 0))
  = Fatal "Resolve with depth is not yet supported.".
Proof.
  apply (blitFast_depth_resolve_fatal
           Sample.getTextureLayout Sample.getSwapChainAttachment
           VK_IMAGE_ASPECT_DEPTH_BIT VK_FILTER_NEAREST
           (Sample.target Sample.msaa Sample.msaa)
           Sample.msaa Sample.plain Sample.rect Sample.rect
           Sample.cmdbuffer (Sample.ready 0)).
  - reflexivity.
  - exact sample_msaa_multisampled.
  - exact sample_plain_singlesampled.
Defined.

Lemma blitFast_exit_barriers_witness :
  fst (blitFast Sample.getTextureLayout Sample.getSwapChainAttachment
         VK_IMAGE_ASPECT_COLOR_BIT VK_FILTER_LINEAR
         (Sample.target Sample.msaa Sample.msaa)
         Sample.msaa Sample.bare Sample.rect Sample.rect
         Sample.cmdbuffer (Sample.ready 0))
  = Returned tt.
Proof.
  apply (blitFast_exit_barriers
           Sample.getTextureLayout Sample.getSwapChainAttachment
           VK_IMAGE_ASPECT_COLOR_BIT VK_FILTER_LINEAR
           (Sample.target Sample.msaa Sample.msaa)
           Sample.msaa Sample.bare Sample.rect Sample.rect
           Sample.cmdbuffer (Sample.ready 0)).
  intros [H _]. discriminate H.
Defined.

Lemma blitFast_barrier_counts_witness :
  exists entry copy exits,
    calls (snd (blitFast Sample.getTextureLayout Sample.getSwapChainAttachment
                  VK_IMAGE_ASPECT_COLOR_BIT VK_FILTER_NEAREST
                  (Sample.target Sample.bare Sample.bare)
                  Sample.bare Sample.plain Sample.rect Sample.rect
                  Sample.cmdbuffer (Sample.ready 9)))
    = [] ++ entry ++ copy :: exits /\
    List.length entry = 2%nat /\ List.length exits = 1%nat.
Proof.
  destruct (blitFast_barrier_counts
              Sample.getTextureLayout Sample.getSwapChainAttachment
              VK_IMAGE_ASPECT_COLOR_BIT VK_FILTER_NEAREST
              (Sample.target Sample.bare Sample.bare)
              Sample.bare Sample.plain Sample.rect Sample.rect
              Sample.cmdbuffer (Sample.ready 9) eq_refl)
    as [entry [copy [exits [Hc [_ [He [_ [_ [_ Hone]]]]]]]]].
  exists entry, copy, exits. split; [exact Hc|]. split; [exact He|].
  apply Hone; [reflexivity | discriminate].
Defined.

Lemma blitFast_resolve_needs_textures_witness :
  exists new,
    calls (snd (blitFast Sample.getTextureLayout Sample.getSwapChainAttachment
                  VK_IMAGE_ASPECT_COLOR_BIT VK_FILTER_NEAREST
                  (Sample.target Sample.msaa Sample.msaa)
                  Sample.msaa Sample.bare Sample.rect Sample.rect
                  Sample.cmdbuffer (Sample.ready 0)))
    = [] ++ new /\
    existsb is_resolve new = false.
Proof.
  destruct (blitFast_resolve_needs_textures
              Sample.getTextureLayout Sample.getSwapChainAttachment
              VK_IMAGE_ASPECT_COLOR_BIT VK_FILTER_NEAREST
              (Sample.target Sample.msaa Sample.msaa)
              Sample.msaa Sample.bare Sample.rect Sample.rect
              Sample.cmdbuffer (Sample.ready 0)) as [new [Hc [_ Hblit]]].
  exists new. split; [exact Hc|].
  apply Hblit. right. reflexivity.
Defined.

Lemma lazyInit_idempotent_witness :
  let r1 := lazyInit Sample.driver 4 Sample.shaderCode 4 Sample.shaderCode
              (Sample.fresh 0) in
  let r2 := lazyInit Sample.driver 4 Sample.shaderCode 4 Sample.shaderCode
              (snd r1) in
  fst r1 = Returned tt /\ fst r2 = Returned tt /\
  mVertex (this (snd r1)) <> VK_NULL_HANDLE /\
  List.length (List.filter is_create (calls (snd r2))) = 2%nat.
Proof.
  destruct (lazyInit_idempotent Sample.driver 4 Sample.shaderCode
              4 Sample.shaderCode (Sample.fresh 0)) as [_ H].
  - intros history dev info _. unfold Sample.driver, VK_NULL_HANDLE.
    cbn [snd]. lia.
  - destruct H as [H1 [H2 [H3 [H4 H5]]]];
      [reflexivity | discriminate | reflexivity | reflexivity |].
    cbv zeta. split; [exact H1|]. split; [exact H2|]. split; [exact H3|].
    rewrite H5, H4. reflexivity.
Defined.

Lemma shutdown_keeps_handles_witness :
  this (snd (shutdown (Sample.ready 0))) = this (Sample.ready 0) /\
  calls (snd (shutdown (snd (shutdown (Sample.ready 0))))) =
  [DestroyShaderModule 7 100; DestroyShaderModule 7 101;
   DestroyShaderModule 7 100; DestroyShaderModule 7 101].
Proof.
  destruct (shutdown_keeps_handles Sample.driver 4 Sample.shaderCode
              4 Sample.shaderCode (Sample.ready 0)) as [_ [H [_ [_ H']]]].
  - discriminate.
  - split; [exact H | exact H'].
Defined.

(** ** Where the statements of the spec stop short *)

(** C1, as stated, fails: a depth copy from a 4-sample source to a 1-sample
    destination has the sample counts that call for a resolve, yet no
    resolve command is issued. *)
Lemma depth_resolve_request_issues_no_resolve :
  let r := blitFast Sample.getTextureLayout Sample.getSwapChainAttachment
             VK_IMAGE_ASPECT_DEPTH_BIT VK_FILTER_NEAREST
             (Sample.target Sample.msaa Sample.msaa)
             Sample.msaa Sample.plain Sample.rect Sample.rect
             Sample.cmdbuffer (Sample.ready 0) in
  ~ (existsb is_resolve (calls (snd r)) = true <->
     multisampled Sample.msaa /\ singlesampled Sample.plain).
Proof.
  intros r [_ H].
  assert (E : existsb is_resolve (calls (snd r)) = true).
  { apply H. split; [exact sample_msaa_multisampled
                    | exact sample_plain_singlesampled]. }
  vm_compute in E. discriminate E.
Qed.

(** C3, as stated, fails: the same call records no barrier that takes the
    destination image to the layout implied by its texture's usage. *)
Lemma depth_resolve_request_has_no_exit_barrier :
  let r := blitFast Sample.getTextureLayout Sample.getSwapChainAttachment
             VK_IMAGE_ASPECT_DEPTH_BIT VK_FILTER_NEAREST
             (Sample.target Sample.msaa Sample.msaa)
             Sample.msaa Sample.plain Sample.rect Sample.rect
             Sample.cmdbuffer (Sample.ready 0) in
  ~ exists t,
      In (TransitionImageLayout Sample.cmdbuffer t) (calls (snd r)) /\
      image t = att_image Sample.plain /\
      newLayout t = Sample.getTextureLayout (usage Sample.plainTexture).
Proof.
  intros r [t [Hin [_ Hl]]].
  vm_compute in Hin.
  destruct Hin as [H | [H | []]]; injection H as <-; vm_compute in Hl;
    discriminate Hl.
Qed.

(** C7, as stated, fails: a depth copy requested through [blitDepth] on a
    fresh blitter stops after both entry barriers were recorded, with no
    copy command behind them. *)
Lemma depth_resolve_request_leaves_entry_barriers :
  let args := {| dstTarget := Sample.target Sample.plain Sample.plain;
                 dstRectPair := Sample.rect;
                 srcTarget := Sample.target Sample.msaa Sample.msaa;
                 srcRectPair := Sample.rect;
                 filter := VK_FILTER_NEAREST;
                 targetIndex := 0 |} in
  let r := blitDepth Sample.getTextureLayout Sample.getSwapChainAttachment
             Sample.optimalTilingFeatures Sample.driver
             4 Sample.shaderCode 4 Sample.shaderCode
             Sample.cmdbuffer args (Sample.fresh 0) in
  ~ (List.filter is_transition (calls (snd r)) = [] \/
     existsb is_copy (calls (snd r)) = true).
Proof.
  intros args r [H | H]; vm_compute in H; discriminate H.
Qed.

(** ** The further properties at the sample data *)

Lemma transitionHelper_overwrites_witness :
  transitionHelper
    {| image := 11; oldLayout := VK_IMAGE_LAYOUT_UNDEFINED;
       newLayout := VK_IMAGE_LAYOUT_PRESENT_SRC_KHR;
       subresources :=
         {| aspectMask := VK_IMAGE_ASPECT_COLOR_BIT; baseMipLevel := 0;
            levelCount := 1; baseArrayLayer := 0; layerCount := 1 |};
       srcStage := VK_PIPELINE_STAGE_FRAGMENT_SHADER_BIT;
       srcAccessMask := VK_ACCESS_SHADER_READ_BIT;
       dstStage := VK_PIPELINE_STAGE_BOTTOM_OF_PIPE_BIT;
       dstAccessMask := VK_ACCESS_TRANSFER_WRITE_BIT |}
  = transitionHelper
      {| image := 11; oldLayout := VK_IMAGE_LAYOUT_UNDEFINED;
         newLayout := VK_IMAGE_LAYOUT_PRESENT_SRC_KHR;
         subresources :=
           {| aspectMask := VK_IMAGE_ASPECT_COLOR_BIT; baseMipLevel := 0;
              levelCount := 1; baseArrayLayer := 0; layerCount := 1 |};
         srcStage := 0; srcAccessMask := 0;
         dstStage := 0; dstAccessMask := 0 |}.
Proof.
  apply (proj2 (transitionHelper_overwrites _)); reflexivity.
Defined.

Lemma blitFast_copy_follows_entry_barriers_witness :
  exists t1 t2 copy rest,
    calls (snd (blitFast Sample.getTextureLayout Sample.getSwapChainAttachment
                  VK_IMAGE_ASPECT_COLOR_BIT VK_FILTER_LINEAR
                  (Sample.target Sample.msaa Sample.msaa)
                  Sample.msaa Sample.plain Sample.rect Sample.rect
                  Sample.cmdbuffer (Sample.ready 0)))
    = TransitionImageLayout Sample.cmdbuffer t1
      :: TransitionImageLayout Sample.cmdbuffer t2 :: copy :: rest /\
    copy_source copy = Some (image t1, newLayout t1) /\
    copy_destination copy = Some (image t2, newLayout t2).
Proof.
  destruct (blitFast_copy_follows_entry_barriers
              Sample.getTextureLayout Sample.getSwapChainAttachment
              VK_IMAGE_ASPECT_COLOR_BIT VK_FILTER_LINEAR
              (Sample.target Sample.msaa Sample.msaa)
              Sample.msaa Sample.plain Sample.rect Sample.rect
              Sample.cmdbuffer (Sample.ready 0) eq_refl)
    as [t1 [t2 [copy [rest [Hc [Hs [Hd _]]]]]]].
  exists t1, t2, copy, rest. split; [exact Hc|]. split; [exact Hs | exact Hd].
Defined.

Lemma blitFast_exit_barriers_follow_policy_witness :
  exists t1 t2 copy exits,
    calls (snd (blitFast Sample.getTextureLayout Sample.getSwapChainAttachment
                  VK_IMAGE_ASPECT_COLOR_BIT VK_FILTER_NEAREST
                  (Sample.target Sample.bare Sample.bare)
                  Sample.bare Sample.plain Sample.rect Sample.rect
                  Sample.cmdbuffer (Sample.ready 0)))
    = TransitionImageLayout Sample.cmdbuffer t1
      :: TransitionImageLayout Sample.cmdbuffer t2 :: copy :: exits /\
    Forall (fun c => exists t, c = TransitionImageLayout Sample.cmdbuffer t /\
                               transitionHelper t = t) exits.
Proof.
  destruct (blitFast_exit_barriers_follow_policy
              Sample.getTextureLayout Sample.getSwapChainAttachment
              VK_IMAGE_ASPECT_COLOR_BIT VK_FILTER_NEAREST
              (Sample.target Sample.bare Sample.bare)
              Sample.bare Sample.plain Sample.rect Sample.rect
              Sample.cmdbuffer (Sample.ready 0) eq_refl)
    as [t1 [t2 [copy [exits [Hc HF]]]]].
  exists t1, t2, copy, exits. split; [exact Hc|].
  revert HF. apply Forall_impl.
  intros c [t [Hc' [Ht _]]]. exists t. split; [exact Hc' | exact Ht].
Defined.

Lemma blitFast_unread_arguments_witness :
  blitFast Sample.getTextureLayout Sample.getSwapChainAttachment
    VK_IMAGE_ASPECT_COLOR_BIT VK_FILTER_LINEAR
    (Sample.target Sample.msaa Sample.msaa)
    Sample.msaa Sample.plain
    (Sample.origin, Sample.origin) (Sample.origin, Sample.origin)
    Sample.cmdbuffer (Sample.ready 0)
  = blitFast Sample.getTextureLayout Sample.getSwapChainAttachment
      VK_IMAGE_ASPECT_COLOR_BIT VK_FILTER_NEAREST
      (Sample.target Sample.msaa Sample.msaa)
      Sample.msaa Sample.plain Sample.rect Sample.rect
      Sample.cmdbuffer (Sample.ready 0).
Proof.
  apply (proj1 (blitFast_unread_arguments
                  Sample.getTextureLayout Sample.getSwapChainAttachment
                  VK_IMAGE_ASPECT_COLOR_BIT VK_FILTER_NEAREST
                  (Sample.target Sample.msaa Sample.msaa)
                  Sample.msaa Sample.plain Sample.rect Sample.rect
                  Sample.cmdbuffer (Sample.ready 0))
           sample_msaa_multisampled sample_plain_singlesampled
           VK_FILTER_LINEAR Sample.origin Sample.origin).
Defined.

Lemma shutdown_safe_witness :
  shutdown Scenario.deviceless = (Returned tt, Scenario.deviceless).
Proof.
  apply (proj2 (proj2 (shutdown_safe Scenario.deviceless))). reflexivity.
Defined.

Lemma lazyInit_without_device_witness :
  exists why,
    lazyInit Sample.driver 4 Sample.shaderCode 4 Sample.shaderCode
      Scenario.deviceless
    = (Fatal why, Scenario.deviceless).
Proof.
  apply (lazyInit_without_device Sample.driver 4 Sample.shaderCode
           4 Sample.shaderCode Scenario.deviceless); reflexivity.
Defined.

Lemma lazyInit_creation_failure_witness :
  fst (lazyInit Scenario.noVertex 4 Sample.shaderCode 4 Sample.shaderCode
         (Sample.fresh 0))
  = Fatal "Unable to create vertex shader for blit." /\
  fst (lazyInit Scenario.noFragment 4 Sample.shaderCode 4 Sample.shaderCode
         (Sample.fresh 0))
  = Fatal "Unable to create fragment shader for blit.".
Proof.
  split.
  - destruct (lazyInit_creation_failure Scenario.noVertex
                4 Sample.shaderCode 4 Sample.shaderCode (Sample.fresh 0))
      as [H _]; [reflexivity | discriminate |].
    apply H. discriminate.
  - destruct (lazyInit_creation_failure Scenario.noFragment
                4 Sample.shaderCode 4 Sample.shaderCode (Sample.fresh 0))
      as [_ H]; [reflexivity | discriminate |].
    apply H; [reflexivity | discriminate].
Defined.

Lemma lazyInit_then_shutdown_witness :
  calls (snd (bind (lazyInit Sample.driver 4 Sample.shaderCode
                      4 Sample.shaderCode)
                (fun _ => shutdown) (Sample.fresh 0)))
  = [CreateShaderModule 7
       {| sType := VK_STRUCTURE_TYPE_SHADER_MODULE_CREATE_INFO;
          pNext := 0; flags := 0; codeSize := 4;
          pCode := Sample.shaderCode |};
     CreateShaderModule 7
       {| sType := VK_STRUCTURE_TYPE_SHADER_MODULE_CREATE_INFO;
          pNext := 0; flags := 0; codeSize := 4;
          pCode := Sample.shaderCode |};
     DestroyShaderModule 7 100; DestroyShaderModule 7 101].
Proof.
  apply (lazyInit_then_shutdown Sample.driver 4 Sample.shaderCode
           4 Sample.shaderCode (Sample.fresh 0));
    [reflexivity | discriminate | reflexivity | reflexivity].
Defined.

Lemma blitColor_ready_witness :
  fst (blitColor Sample.getTextureLayout Sample.getSwapChainAttachment
         Sample.optimalTilingFeatures Sample.driver
         4 Sample.shaderCode 4 Sample.shaderCode
         Sample.cmdbuffer Scenario.colorArgs (Sample.ready 0))
  = Returned tt.
Proof.
  apply (blitColor_ready Sample.getTextureLayout Sample.getSwapChainAttachment
           Sample.optimalTilingFeatures Sample.driver
           4 Sample.shaderCode 4 Sample.shaderCode
           Sample.cmdbuffer Scenario.colorArgs (Sample.ready 0)).
  discriminate.
Defined.

Lemma blitDepth_ready_witness :
  exists why,
    fst (blitDepth Sample.getTextureLayout Sample.getSwapChainAttachment
           Sample.optimalTilingFeatures Sample.driver
           4 Sample.shaderCode 4 Sample.shaderCode
           Sample.cmdbuffer Scenario.depthArgs (Sample.ready 0))
    = Fatal why.
Proof.
  apply (blitDepth_ready Sample.getTextureLayout Sample.getSwapChainAttachment
           Sample.optimalTilingFeatures Sample.driver
           4 Sample.shaderCode 4 Sample.shaderCode
           Sample.cmdbuffer Scenario.depthArgs (Sample.ready 0)).
  - discriminate.
  - split; [exact sample_msaa_multisampled | exact sample_plain_singlesampled].
Defined.

Lemma format_check_gate_witness :
  blitColorWith Sample.getTextureLayout Sample.getSwapChainAttachment
    Sample.optimalTilingFeatures Sample.driver
    4 Sample.shaderCode 4 Sample.shaderCode
    true Sample.cmdbuffer Scenario.colorArgs (Sample.ready 0)
  = (Returned tt, Sample.ready 0).
Proof.
  apply (format_check_gate Sample.getTextureLayout
           Sample.getSwapChainAttachment
           Sample.optimalTilingFeatures Sample.driver
           4 Sample.shaderCode 4 Sample.shaderCode
           Sample.cmdbuffer Scenario.colorArgs (Sample.ready 0)).
  - discriminate.
  - left. reflexivity.
Defined.

Lemma entry_points_read_witness :
  blitColor Sample.getTextureLayout Sample.getSwapChainAttachment
    Sample.optimalTilingFeatures Sample.driver
    4 Sample.shaderCode 4 Sample.shaderCode
    Sample.cmdbuffer Scenario.colorArgs' (Sample.fresh 0)
  = blitColor Sample.getTextureLayout Sample.getSwapChainAttachment
      Sample.optimalTilingFeatures Sample.driver
      4 Sample.shaderCode 4 Sample.shaderCode
      Sample.cmdbuffer Scenario.colorArgs (Sample.fresh 0).
Proof.
  apply (entry_points_read Sample.getTextureLayout
           Sample.getSwapChainAttachment
           Sample.optimalTilingFeatures Sample.driver
           4 Sample.shaderCode 4 Sample.shaderCode
           Sample.cmdbuffer Scenario.colorArgs Scenario.colorArgs'
           (Sample.fresh 0)); reflexivity.
Defined.

Lemma blitColor_twice_witness :
  fst (bind (blitColor Sample.getTextureLayout Sample.getSwapChainAttachment
               Sample.optimalTilingFeatures Sample.driver
               4 Sample.shaderCode 4 Sample.shaderCode
               Sample.cmdbuffer Scenario.colorArgs)
         (fun _ =>
            blitColor Sample.getTextureLayout Sample.getSwapChainAttachment
              Sample.optimalTilingFeatures Sample.driver
              4 Sample.shaderCode 4 Sample.shaderCode
              6 Scenario.colorArgs')
         (Sample.fresh 0))
  = Returned tt.
Proof.
  apply (blitColor_twice Sample.getTextureLayout
           Sample.getSwapChainAttachment
           Sample.optimalTilingFeatures Sample.driver
           4 Sample.shaderCode 4 Sample.shaderCode
           Sample.cmdbuffer 6 Scenario.colorArgs Scenario.colorArgs'
           (Sample.fresh 0));
    [reflexivity | discriminate | reflexivity | discriminate | reflexivity].
Defined.

Lemma blitFast_barriers_cover_copy_witness :
  exists t1 t2 copy rest srcLayers dstLayers,
    calls (snd (blitFast Sample.getTextureLayout Sample.getSwapChainAttachment
                  VK_IMAGE_ASPECT_DEPTH_BIT VK_FILTER_NEAREST
                  (Sample.target Sample.plain Sample.plain)
                  Sample.plain Sample.plain Sample.rect Sample.rect
                  Sample.cmdbuffer (Sample.ready 0)))
    = TransitionImageLayout Sample.cmdbuffer t1
      :: TransitionImageLayout Sample.cmdbuffer t2 :: copy :: rest /\
    copy_regions copy = [(srcLayers, dstLayers)] /\
    range_of_layers srcLayers = subresources t1 /\
    range_of_layers dstLayers = subresources t2.
Proof.
  exact (blitFast_barriers_cover_copy
           Sample.getTextureLayout Sample.getSwapChainAttachment
           VK_IMAGE_ASPECT_DEPTH_BIT VK_FILTER_NEAREST
           (Sample.target Sample.plain Sample.plain)
           Sample.plain Sample.plain Sample.rect Sample.rect
           Sample.cmdbuffer (Sample.ready 0) eq_refl).
Defined.
